(** * erp_system: the aggregation core and its producer-side sync clients

    A shallow embedding of the Django / Django REST framework code of the
    repository:

    - [main_app] (the core service): the models [TableSchema] and
      [TableData], the serializers of [api/serializers.py] and the view sets
      of [api/views.py] ([populate], [clear_data], [data], the record
      resource);
    - [user_service] and [product_service]: [to_table_data] and the
      synchronisation calls [sync_to_core_service], [sync_to_core] and
      [sync_single].

    Conventions.  A Python [str] is a [string] holding its UTF-8 encoding; a
    parsed JSON body is a [json] value; the database is an explicit state
    threaded through a state-and-exception monad; what the repository takes
    from its platform (the database backend, Python's printing of floats) is
    gathered in records that the definitions take as parameters. *)

From Stdlib Require Import ZArith List String Ascii Bool Lia Floats DecimalString.
From Stdlib Require Import Permutation Sorted.
Import ListNotations.

Set Warnings "-register-all".

Local Open Scope string_scope.
Local Open Scope Z_scope.

(* ===================================================================== *)
(** * Part I: definitions                                                 *)
(* ===================================================================== *)

(* --------------------------------------------------------------------- *)
(** ** Python strings *)
(* --------------------------------------------------------------------- *)

Module Py.

(** The byte [c] continues a multi-byte UTF-8 sequence (10xxxxxx). *)
Definition is_continuation (c : ascii) : bool :=
  let n := N_of_ascii c in ((128 <=? n) && (n <? 192))%N.

(** [len(s)]: the number of code points of [s]. *)
Fixpoint len (s : string) : nat :=
  match s with
  | EmptyString => O
  | String c r => ((if is_continuation c then 0 else 1) + len r)%nat
  end.

(** The code points for which [str.isspace()] holds, by the length of
    their encoding: U+0009..U+000D, U+001C..U+001F and U+0020; U+0085 and
    U+00A0; U+1680, U+2000..U+200A, U+2028, U+2029, U+202F, U+205F and
    U+3000. *)
Definition space1 (a : ascii) : bool :=
  let n := N_of_ascii a in
  (((9 <=? n) && (n <=? 13)) || ((28 <=? n) && (n <=? 32)))%N.

Definition space2 (a b : ascii) : bool :=
  let m := N_of_ascii a in
  let n := N_of_ascii b in
  ((m =? 194) && ((n =? 133) || (n =? 160)))%N.

Definition space3 (a b c : ascii) : bool :=
  let l := N_of_ascii a in
  let m := N_of_ascii b in
  let n := N_of_ascii c in
  (((l =? 225) && (m =? 154) && (n =? 128))
   || ((l =? 226) && (m =? 128)
       && (((128 <=? n) && (n <=? 138)) || (n =? 168) || (n =? 169) || (n =? 175)))
   || ((l =? 226) && (m =? 129) && (n =? 159))
   || ((l =? 227) && (m =? 128) && (n =? 128)))%N.

(** Drops the leading code points accepted by [w1], [w2], [w3]. *)
Fixpoint drop_leading (w1 : ascii -> bool) (w2 : ascii -> ascii -> bool)
    (w3 : ascii -> ascii -> ascii -> bool) (s : list ascii) : list ascii :=
  match s with
  | [] => []
  | a :: r1 =>
      if w1 a then drop_leading w1 w2 w3 r1
      else
        match r1 with
        | [] => s
        | b :: r2 =>
            if w2 a b then drop_leading w1 w2 w3 r2
            else
              match r2 with
              | [] => s
              | c :: r3 =>
                  if w3 a b c then drop_leading w1 w2 w3 r3 else s
              end
        end
  end.

Definition lstrip (s : string) : string :=
  string_of_list_ascii
    (drop_leading space1 space2 space3 (list_ascii_of_string s)).

(** Trailing white space: the same scan over the reversed bytes, with the
    encodings read backwards. *)
Definition rstrip (s : string) : string :=
  string_of_list_ascii
    (rev (drop_leading space1 (fun b a => space2 a b)
            (fun c b a => space3 a b c)
            (rev (list_ascii_of_string s)))).

(** [s.strip()] *)
Definition strip (s : string) : string := rstrip (lstrip s).

(** [str(n)] for an [int]. *)
Definition str_of_int (z : Z) : string :=
  NilZero.string_of_int (Z.to_int z).

(** ['\x00' in s] *)
Fixpoint has_null (s : string) : bool :=
  match s with
  | EmptyString => false
  | String c r => (N_of_ascii c =? 0)%N || has_null r
  end.

(** [s] holds a surrogate code point U+D800..U+DFFF (encoded ED A0..BF xx). *)
Fixpoint has_surrogate (s : string) : bool :=
  match s with
  | EmptyString => false
  | String a r =>
      match r with
      | EmptyString => false
      | String b _ =>
          ((N_of_ascii a =? 237) && (160 <=? N_of_ascii b)
           && (N_of_ascii b <=? 191))%N
          || has_surrogate r
      end
  end.

(** The double-quote character, built from its code. *)
Definition dquote : string := String (ascii_of_nat 34) EmptyString.

End Py.

(* --------------------------------------------------------------------- *)
(** ** JSON values, as [json.loads] returns them *)
(* --------------------------------------------------------------------- *)

Inductive json : Type :=
| JNull                                   (* None *)
| JBool (b : bool)                        (* bool *)
| JInt (z : Z)                            (* int *)
| JFloat (f : float)                      (* float *)
| JStr (s : string)                       (* str *)
| JArr (l : list json)                    (* list *)
| JObj (kv : list (string * json)).       (* dict, in key order *)

(** A [dict] as its items in order. *)
Definition pydict := list (string * json).

(** [d.get(k)] / [d[k]]: the value under key [k], if any. *)
Fixpoint dict_get (k : string) (d : pydict) : option json :=
  match d with
  | [] => None
  | (k', v) :: r => if String.eqb k k' then Some v else dict_get k r
  end.

(** [k in d] *)
Definition dict_has (k : string) (d : pydict) : bool :=
  match dict_get k d with Some _ => true | None => false end.

(** [isinstance(v, dict)] *)
Definition is_dict (v : json) : bool :=
  match v with JObj _ => true | _ => false end.

(** What the code takes from the Python runtime without defining it: the
    [repr] of a float, and [str()] of a list or of a dict. *)
Record Runtime : Type := {
  float_repr : float -> string;
  container_str : json -> string;
  (* the primary key the ORM reads from a key that is not an [int] (a
     numeric string, a float), if any *)
  pk_of_json : json -> option Z;
  (* how the framework's BooleanField reads a string, if it does *)
  bool_of_str : string -> option bool;
  (* the integer the framework's IntegerField reads from a string or a
     float, if it does *)
  int_of_json : json -> option Z
}.

(** [str(v)] *)
Definition py_str (R : Runtime) (v : json) : string :=
  match v with
  | JNull => "None"
  | JBool true => "True"
  | JBool false => "False"
  | JInt z => Py.str_of_int z
  | JFloat f => float_repr R f
  | JStr s => s
  | JArr _ | JObj _ => container_str R v
  end.

(* --------------------------------------------------------------------- *)
(** ** Django REST framework: the fields the serializers are built from *)
(* --------------------------------------------------------------------- *)

Module Drf.

(** One entry of a [ValidationError]: a built-in error of the framework,
    named by its code, or the text a [validate_<field>] method of the
    repository raises. *)
Inductive error_detail : Type :=
| Code (code : string)
| Message (text : string).

(** The detail reported for one field: a list of errors, or, for a list
    field whose items fail, the errors of each failing item by index. *)
Inductive detail : Type :=
| Errors (l : list error_detail)
| ItemErrors (l : list (nat * list error_detail)).

(** [serializer.errors]: field name to detail, in field order. *)
Definition error_dict := list (string * detail).

(** The outcome of [field.run_validation]: the internal value, [SkipField]
    for an optional field that is absent, or a [ValidationError]. *)
Inductive validated (A : Type) : Type :=
| Valid (a : A)
| Skipped
| Invalid (d : detail).
Arguments Valid {A} a.
Arguments Skipped {A}.
Arguments Invalid {A} d.

(** [Field.validate_empty_values] for [allow_null=False] and no default:
    the field's outcome when the value is absent or [None], the value to
    go on with otherwise. *)
Definition validate_empty_values {A} (required : bool) (data : option json)
    : validated A + json :=
  match data with
  | None => inl (if required then Invalid (Errors [Code "required"]) else Skipped)
  | Some JNull => inl (Invalid (Errors [Code "null"]))
  | Some v => inr v
  end.

Section Fields.
Context (R : Runtime).

(** [serializers.CharField] with [trim_whitespace=True] (the default),
    [allow_null=False]; [validators] are the ones given to the
    constructor, which run before the field's own. *)
Record CharField : Type := {
  max_length : option nat;
  allow_blank : bool;
  required : bool;
  validators : list (string -> list error_detail)
}.

(** [Field.run_validators]: every validator runs, the errors add up. *)
Definition run_validators (f : CharField) (value : string)
    : list error_detail :=
  flat_map (fun v => v value) (validators f)
  ++ match max_length f with
     | Some n => if (n <? Py.len value)%nat then [Code "max_length"] else []
     | None => []
     end
  ++ (if Py.has_null value then [Code "null_characters_not_allowed"] else [])
  ++ (if Py.has_surrogate value
      then [Code "surrogate_characters_not_allowed"] else []).

(** [CharField.to_internal_value]: strings and numbers are coerced with
    [str()] and trimmed, anything else is refused. *)
Definition CharField_to_internal_value (data : json) : option string :=
  match data with
  | JStr _ | JInt _ | JFloat _ => Some (Py.strip (py_str R data))
  | JNull | JBool _ | JArr _ | JObj _ => None
  end.

(** [CharField.run_validation]: the test for a blank value comes first
    ([data == '' or str(data).strip() == '']), then
    [validate_empty_values], [to_internal_value] and the validators. *)
Definition CharField_run_validation (f : CharField) (data : option json)
    : validated string :=
  let blank :=
    match data with
    | Some v => String.eqb (Py.strip (py_str R v)) ""
    | None => false
    end in
  if blank then
    if allow_blank f then Valid "" else Invalid (Errors [Code "blank"])
  else
    match validate_empty_values (required f) data with
    | inl r => r
    | inr v =>
        match CharField_to_internal_value v with
        | None => Invalid (Errors [Code "invalid"])
        | Some value =>
            match run_validators f value with
            | [] => Valid value
            | errs => Invalid (Errors errs)
            end
        end
    end.

End Fields.

(** [serializers.DictField()] as the child of a list: [None] is refused
    ([allow_null=False]), a [dict] is accepted with its items as they are
    (the default child field validates nothing), anything else is
    [not_a_dict]. *)
Definition DictField_run_validation (data : json)
    : list error_detail + json :=
  match data with
  | JNull => inl [Code "null"]
  | JObj d => inr (JObj d)
  | _ => inl [Code "not_a_dict"]
  end.

(** [ListField.run_child_validation] with a [DictField] child: the
    validated items, and the errors of the failing ones by index. *)
Fixpoint run_child_validation (idx : nat) (data : list json)
    : list json * list (nat * list error_detail) :=
  match data with
  | [] => ([], [])
  | item :: rest =>
      let (result, errors) := run_child_validation (S idx) rest in
      match DictField_run_validation item with
      | inr d => (d :: result, errors)
      | inl e => (result, (idx, e) :: errors)
      end
  end.

(** [serializers.ListField(child=serializers.DictField())], required:
    a [str], a [dict] or a value that cannot be iterated is [not_a_list]. *)
Definition ListField_run_validation (data : option json)
    : validated json :=
  match validate_empty_values true data with
  | inl r => r
  | inr (JArr l) =>
      match run_child_validation 0 l with
      | (result, []) => Valid (JArr result)
      | (_, errors) => Invalid (ItemErrors errors)
      end
  | inr _ => Invalid (Errors [Code "not_a_list"])
  end.

(** [serializers.BooleanField(required=False)]: the booleans, the numbers
    equal to 1 or to 0, and the strings the framework lists. *)
Definition BooleanField_run_validation (R : Runtime) (data : option json)
    : validated bool :=
  match validate_empty_values false data with
  | inl r => r
  | inr (JBool b) => Valid b
  | inr (JInt 1) => Valid true
  | inr (JInt 0) => Valid false
  | inr (JFloat f) =>
      if PrimFloat.eqb f 1 then Valid true
      else if PrimFloat.eqb f 0 then Valid false
      else Invalid (Errors [Code "invalid"])
  | inr (JStr s) =>
      match bool_of_str R s with
      | Some b => Valid b
      | None => Invalid (Errors [Code "invalid"])
      end
  | inr _ => Invalid (Errors [Code "invalid"])
  end.

(** [serializers.IntegerField().to_internal_value] *)
Definition IntegerField_to_internal_value (R : Runtime) (data : json)
    : list error_detail + Z :=
  match data with
  | JInt z => inr z
  | JStr _ | JFloat _ =>
      match int_of_json R data with
      | Some z => inr z
      | None => inl [Code "invalid"]
      end
  | JNull => inl [Code "null"]
  | JBool _ | JArr _ | JObj _ => inl [Code "invalid"]
  end.

(** [serializers.IntegerField(default=...)]: an absent value takes the
    default. *)
Definition IntegerField_run_validation (R : Runtime) (default : Z)
    (data : option json) : validated Z :=
  match data with
  | None => Valid default
  | Some v =>
      match IntegerField_to_internal_value R v with
      | inr z => Valid z
      | inl e => Invalid (Errors e)
      end
  end.

(** [ListField.run_child_validation] with an [IntegerField] child. *)
Fixpoint run_integer_children (R : Runtime) (idx : nat) (data : list json)
    : list Z * list (nat * list error_detail) :=
  match data with
  | [] => ([], [])
  | item :: rest =>
      let (result, errors) := run_integer_children R (S idx) rest in
      match IntegerField_to_internal_value R item with
      | inr z => (z :: result, errors)
      | inl e => (result, (idx, e) :: errors)
      end
  end.

(** [serializers.ListField(child=serializers.IntegerField(),
    required=False)] *)
Definition IntegerListField_run_validation (R : Runtime) (data : option json)
    : validated (list Z) :=
  match validate_empty_values false data with
  | inl r => r
  | inr (JArr l) =>
      match run_integer_children R 0 l with
      | (result, []) => Valid result
      | (_, errors) => Invalid (ItemErrors errors)
      end
  | inr _ => Invalid (Errors [Code "not_a_list"])
  end.

(** [serializers.JSONField()] with [allow_null=False]: any other parsed
    value is accepted as it is. *)
Definition JSONField_run_validation (required : bool) (data : option json)
    : validated json :=
  match validate_empty_values required data with
  | inl r => r
  | inr v => Valid v
  end.


(** A [validate_<field>] method, run on the value the field accepted. *)
Definition then_validate {A} (r : validated A) (method : A -> string + A)
    : validated A :=
  match r with
  | Valid a =>
      match method a with
      | inl text => Invalid (Errors [Message text])
      | inr a' => Valid a'
      end
  | _ => r
  end.

(** The entry of [serializer.errors] for one field, if it failed. *)
Definition field_errors {A} (field : string) (r : validated A) : error_dict :=
  match r with
  | Invalid d => [(field, d)]
  | _ => []
  end.

(** The value to store for an optional field: absent when skipped. *)
Definition value_of {A} (r : validated A) : option A :=
  match r with
  | Valid a => Some a
  | _ => None
  end.

(** The body handed to a serializer must be a mapping
    ([Serializer.to_internal_value]); [None] is refused before that. *)
Definition body_fields (body : json) : error_dict + pydict :=
  match body with
  | JObj d => inr d
  | JNull => inl [("non_field_errors", Errors [Code "null"])]
  | _ => inl [("non_field_errors", Errors [Code "invalid"])]
  end.

End Drf.

(* --------------------------------------------------------------------- *)
(** ** main_app: models (tables/models.py) *)
(* --------------------------------------------------------------------- *)

Module TableSchema.
Record t : Type := {
  id : Z;
  name : string;              (* max_length=100, unique *)
  description : string;       (* blank=True *)
  fields_config : json;
  created_at : Z;             (* auto_now_add *)
  updated_at : Z;             (* auto_now *)
  is_active : bool            (* default=True *)
}.

(** [get_field_names]: [[field['name'] for field in
    self.fields_config.get('fields', [])]]; [None] where the Python raises
    (the configuration is no dict, [fields] cannot be iterated or yields
    something that is no dict, an entry has no name).  An empty string and
    an empty dict iterate to nothing. *)
Fixpoint names_of (fields : list json) : option (list json) :=
  match fields with
  | [] => Some []
  | JObj field :: rest =>
      match dict_get "name" field, names_of rest with
      | Some n, Some ns => Some (n :: ns)
      | _, _ => None
      end
  | _ :: _ => None
  end.

Definition get_field_names (self : t) : option (list json) :=
  match fields_config self with
  | JObj d =>
      match dict_get "fields" d with
      | None => Some []
      | Some (JArr fields) => names_of fields
      | Some (JStr "") | Some (JObj []) => Some []
      | Some _ => None
      end
  | _ => None
  end.
End TableSchema.

Module TableData.
Record t : Type := {
  id : Z;
  schema : Z;                 (* ForeignKey(TableSchema, CASCADE): schema_id *)
  data : json;
  source_service : string;    (* max_length=50 *)
  source_id : string;         (* max_length=100, blank=True *)
  created_at : Z;
  updated_at : Z
}.
End TableData.

(* --------------------------------------------------------------------- *)
(** ** The database and the request monad *)
(* --------------------------------------------------------------------- *)

Module Db.

(** The two tables in insertion order, the primary-key sequences, and the
    clock read by [auto_now] and [auto_now_add] (a logical time that
    advances with every write). *)
Record State : Type := {
  schemas : list TableSchema.t;
  entries : list TableData.t;
  next_schema_id : Z;
  next_data_id : Z;
  clock : Z
}.

(** What the code takes from the database backend without defining it. *)
Record Backend : Type := {
  (* [name__icontains=needle]: needle, then the column value *)
  icontains : string -> string -> bool;
  (* [column=value] on a text column, under the column's collation *)
  text_eq : string -> string -> bool;
  (* the error the backend raises on writing this row, beyond the
     constraints the models declare (an overlong value in a bounded
     column, a character the column type cannot hold), if any *)
  refuses_data : TableData.t -> option string;
  refuses_schema : TableSchema.t -> option string;
  (* the text of the error raised for [NULL] in a NOT NULL column *)
  not_null_error : string -> string;
  (* whether a rollback also restores the primary-key sequences *)
  sequences_transactional : bool
}.

Inductive exn : Type :=
| Http404
| ValidationError (errors : Drf.error_dict)
| DatabaseError (text : string)
| TypeError (text : string)
| AttributeError (text : string).

(** [str(e)], for the exceptions a view prints (the database's and
    Python's own). *)
Definition exn_str (e : exn) : string :=
  match e with
  | Http404 => ""
  | ValidationError _ => ""
  | DatabaseError text | TypeError text | AttributeError text => text
  end.

Inductive outcome (A : Type) : Type :=
| Ok (a : A)
| Raise (e : exn).
Arguments Ok {A} a.
Arguments Raise {A} e.

(** A computation over the database that returns or raises; what it wrote
    before raising stays written unless a transaction rolls it back. *)
Definition M (A : Type) : Type := State -> outcome A * State.

Definition ret {A} (a : A) : M A := fun st => (Ok a, st).

Definition raise {A} (e : exn) : M A := fun st => (Raise e, st).

Definition bind {A B} (m : M A) (k : A -> M B) : M B :=
  fun st =>
    match m st with
    | (Ok a, st') => k a st'
    | (Raise e, st') => (Raise e, st')
    end.

(** [try: m except Exception as e: handler(e)] *)
Definition try_except {A} (m : M A) (handler : exn -> M A) : M A :=
  fun st =>
    match m st with
    | (Ok a, st') => (Ok a, st')
    | (Raise e, st') => handler e st'
    end.

(** The state a rollback to the snapshot [saved] leaves: the tables as
    they were; the clock is not the database's. *)
Definition rollback (B : Backend) (saved now : State) : State :=
  {| schemas := schemas saved;
     entries := entries saved;
     next_schema_id :=
       if sequences_transactional B then next_schema_id saved
       else next_schema_id now;
     next_data_id :=
       if sequences_transactional B then next_data_id saved
       else next_data_id now;
     clock := clock now |}.

(** [with transaction.atomic(): m]: commits when [m] returns, rolls back
    and re-raises when it raises. *)
Definition atomic {A} (B : Backend) (m : M A) : M A :=
  fun st =>
    match m st with
    | (Ok a, st') => (Ok a, st')
    | (Raise e, st') => (Raise e, rollback B st st')
    end.

Definition get {A} (f : State -> A) : M A := fun st => (Ok (f st), st).

(** [order_by('-key')]: a stable insertion sort, largest key first. *)
Fixpoint insert_desc {A} (key : A -> Z) (x : A) (l : list A) : list A :=
  match l with
  | [] => [x]
  | y :: r => if key y <=? key x then x :: l else y :: insert_desc key x r
  end.

Definition order_by_desc {A} (key : A -> Z) (l : list A) : list A :=
  fold_right (insert_desc key) [] l.

End Db.

Declare Scope db_scope.
Delimit Scope db_scope with db.
Notation "x <- m ;; k" := (Db.bind m (fun x => k))
  (at level 100, m at next level, right associativity) : db_scope.
Notation "m ;;; k" := (Db.bind m (fun _ => k))
  (at level 100, right associativity) : db_scope.

(* --------------------------------------------------------------------- *)
(** ** main_app: serializers (api/serializers.py) and views (api/views.py) *)
(* --------------------------------------------------------------------- *)

Module MainApp.
Import Drf Db.
Local Open Scope db_scope.

(** The body of a response.  A serialised row stands for itself: the
    serializers emit every column of the row (and the name of its
    schema). *)
Inductive content : Type :=
| FieldErrors (errors : error_dict)          (* serializer.errors *)
| NotFound                                   (* the framework's 404 body *)
| ServerError                                (* an exception no view handles *)
| Created (message : string) (count : Z) (data : list TableData.t)
| ErrorText (error : string)                 (* {'error': ...} *)
| MessageText (message : string)             (* {'message': ...} *)
| Entries (rows : list TableData.t)
| Entry (row : TableData.t)
| Schemas (rows : list TableSchema.t)
| Schema (row : TableSchema.t)
| NoContent.

Record Response : Type := { status : Z; payload : content }.

(** What a schema-creation request leaves after validation. *)
Record schema_values : Type := {
  v_name : string;
  v_description : option string;
  v_fields_config : json;
  v_is_active : option bool
}.


(** The actions a view set routes. *)
Inductive action : Type :=
| list_ | create_ | retrieve_ | update_ | partial_update_ | destroy_
| extra (name : string).

(** [viewsets.ModelViewSet] and [viewsets.ReadOnlyModelViewSet] *)
Definition ModelViewSet : list action :=
  [create_; retrieve_; update_; partial_update_; destroy_; list_].

Definition ReadOnlyModelViewSet : list action := [retrieve_; list_].

(** [class TableSchemaViewSet(viewsets.ModelViewSet)] with its three
    [@action]s, and [class TableDataViewSet(viewsets.ModelViewSet)]. *)
Definition TableSchemaViewSet_actions : list action :=
  (ModelViewSet ++ [extra "data"; extra "populate"; extra "clear_data"])%list.


(** [for key in required_keys: if key not in field: raise ...] *)
Fixpoint check_required_keys (required_keys : list string) (field : pydict)
    : option string :=
  match required_keys with
  | [] => None
  | key :: rest =>
      if dict_has key field then check_required_keys rest field
      else Some ("Поле должно содержать '" ++ key ++ "'")
  end.

(** [for field in value['fields']: ...]: the first error raised, if any. *)
Fixpoint check_fields (fields : list json) : option string :=
  match fields with
  | [] => None
  | JObj field :: rest =>
      match check_required_keys ["name"; "type"] field with
      | Some text => Some text
      | None => check_fields rest
      end
  | _ :: _ => Some "Каждое поле должно быть объектом"
  end.

(** [TableSchemaSerializer.validate_fields_config] *)
Definition validate_fields_config (value : json) : string + json :=
  match value with
  | JObj d =>
      match dict_get "fields" d with
      | None => inl "Отсутствует ключ 'fields'"
      | Some (JArr fields) =>
          match check_fields fields with
          | Some text => inl text
          | None => inr value
          end
      | Some _ => inl "'fields' должен быть массивом"
      end
  | _ => inl "fields_config должен быть объектом"
  end.

(** [PopulateTableSerializer.validate_data] *)
Definition validate_data (value : json) : string + json :=
  match value with
  | JArr items =>
      if (List.length items =? 0)%nat then inl "data не может быть пустым"
      else if forallb is_dict items then inr value
      else inl "Каждый элемент data должен быть объектом"
  | _ => inl "data должен быть массивом"
  end.

Section Api.
Context (R : Runtime) (B : Backend).

(** [source_service = serializers.CharField(max_length=50)] *)
Definition source_service_field : CharField :=
  {| max_length := Some 50%nat; allow_blank := false; required := true;
     validators := [] |}.

(** [PopulateTableSerializer(data=body).is_valid()]: the errors, or
    [validated_data] as [(source_service, data)]. *)
Definition PopulateTableSerializer (body : json)
    : error_dict + (string * json) :=
  match body_fields body with
  | inl errors => inl errors
  | inr d =>
      let source_service :=
        CharField_run_validation R source_service_field
          (dict_get "source_service" d) in
      let data :=
        then_validate (ListField_run_validation (dict_get "data" d))
          validate_data in
      match source_service, data with
      | Valid s, Valid l => inr (s, l)
      | _, _ =>
          inl (field_errors "source_service" source_service
               ++ field_errors "data" data)%list
      end
  end.

(** The [UniqueValidator] the model serializer puts on [name]: no other
    row of the table, active or not, has this name. *)
Definition unique_name (st : State) (instance : option Z) (value : string)
    : list error_detail :=
  if existsb
       (fun s =>
          text_eq B (TableSchema.name s) value
          && match instance with
             | Some pk => negb (TableSchema.id s =? pk)
             | None => true
             end)
       (schemas st)
  then [Code "unique"] else [].

(** The fields [TableSchemaSerializer] derives from the model. *)
Definition name_field (st : State) (instance : option Z) : CharField :=
  {| max_length := Some 100%nat; allow_blank := false; required := true;
     validators := [unique_name st instance] |}.

Definition description_field : CharField :=
  {| max_length := None; allow_blank := true; required := false;
     validators := [] |}.

(** [TableSchemaSerializer(data=body).is_valid()] for a creation. *)
Definition TableSchemaSerializer (st : State) (body : json)
    : error_dict + schema_values :=
  match body_fields body with
  | inl errors => inl errors
  | inr d =>
      let name :=
        CharField_run_validation R (name_field st None) (dict_get "name" d) in
      let description :=
        CharField_run_validation R description_field
          (dict_get "description" d) in
      let fields_config :=
        then_validate (JSONField_run_validation true (dict_get "fields_config" d))
          validate_fields_config in
      let is_active :=
        BooleanField_run_validation R (dict_get "is_active" d) in
      match (field_errors "name" name
             ++ field_errors "description" description
             ++ field_errors "fields_config" fields_config
             ++ field_errors "is_active" is_active)%list,
            name, fields_config with
      | [], Valid n, Valid fc =>
          inr {| v_name := n; v_description := value_of description;
                 v_fields_config := fc; v_is_active := value_of is_active |}
      | errors, _, _ => inl errors
      end
  end.

(** The row [TableSchema(validated_data)] makes: a field left out takes
    the default the model declares. *)
Definition new_schema (v : schema_values) (st : State) : TableSchema.t :=
  {| TableSchema.id := next_schema_id st;
     TableSchema.name := v_name v;
     TableSchema.description :=
       match v_description v with Some s => s | None => "" end;
     TableSchema.fields_config := v_fields_config v;
     TableSchema.created_at := clock st;
     TableSchema.updated_at := clock st;
     TableSchema.is_active :=
       match v_is_active v with Some b => b | None => true end |}.

(** [ModelSerializer.create]: [TableSchema.objects.create] with the
    validated values. *)
Definition TableSchema_create (v : schema_values) : M TableSchema.t :=
  fun st =>
    let row := new_schema v st in
    match refuses_schema B row with
    | Some text =>
        (Raise (DatabaseError text),
         {| schemas := schemas st; entries := entries st;
            next_schema_id :=
              if sequences_transactional B then next_schema_id st
              else next_schema_id st + 1;
            next_data_id := next_data_id st; clock := clock st |})
    | None =>
        (Ok row,
         {| schemas := (schemas st ++ [row])%list; entries := entries st;
            next_schema_id := next_schema_id st + 1;
            next_data_id := next_data_id st; clock := clock st + 1 |})
    end.

(** [TableData.objects.create(schema=, data=, source_service=,
    source_id=)]: [source_id] is a NOT NULL text column, which stores
    [str()] of a value that is no string. *)
Definition TableData_create (schema : TableSchema.t) (data : json)
    (source_service : string) (source_id : json) : M TableData.t :=
  fun st =>
    let failed :=
      {| schemas := schemas st; entries := entries st;
         next_schema_id := next_schema_id st;
         next_data_id :=
           if sequences_transactional B then next_data_id st
           else next_data_id st + 1;
         clock := clock st |} in
    match source_id with
    | JNull => (Raise (DatabaseError (not_null_error B "source_id")), failed)
    | _ =>
        let row :=
          {| TableData.id := next_data_id st;
             TableData.schema := TableSchema.id schema;
             TableData.data := data;
             TableData.source_service := source_service;
             TableData.source_id := py_str R source_id;
             TableData.created_at := clock st;
             TableData.updated_at := clock st |} in
        match refuses_data B row with
        | Some text => (Raise (DatabaseError text), failed)
        | None =>
            (Ok row,
             {| schemas := schemas st; entries := (entries st ++ [row])%list;
                next_schema_id := next_schema_id st;
                next_data_id := next_data_id st + 1;
                clock := clock st + 1 |})
        end
    end.

(** *** [TableSchemaViewSet] *)

(** [get_queryset]: the active schemas, narrowed by [?search=] when it
    is given and not empty, newest first. *)
Definition get_queryset (search : option string) (st : State)
    : list TableSchema.t :=
  let queryset := filter TableSchema.is_active (schemas st) in
  let queryset :=
    match search with
    | Some s =>
        if String.eqb s "" then queryset
        else filter (fun row => icontains B s (TableSchema.name row)) queryset
    | None => queryset
    end in
  order_by_desc TableSchema.created_at queryset.

(** [self.get_object()]: the row of [get_queryset] with this primary
    key, or [Http404]. *)
Definition get_object (search : option string) (pk : Z) : M TableSchema.t :=
  fun st =>
    match find (fun row => TableSchema.id row =? pk) (get_queryset search st) with
    | Some row => (Ok row, st)
    | None => (Raise Http404, st)
    end.

(** [TableData.objects.filter(schema=schema)] *)
Definition of_schema (schema : TableSchema.t) (row : TableData.t) : bool :=
  TableData.schema row =? TableSchema.id schema.

(** [queryset.delete()] on the rows selected by [p] *)
Definition delete_entries (p : TableData.t -> bool) : M unit :=
  fun st =>
    (Ok tt,
     {| schemas := schemas st;
        entries := filter (fun row => negb (p row)) (entries st);
        next_schema_id := next_schema_id st;
        next_data_id := next_data_id st;
        clock := clock st |}).

(** The [data] action (the window a paginator configured outside these
    sources selects from the sequence is not modelled). *)
Definition data (pk : Z) (search : option string) : M Response :=
  schema <- get_object search pk ;;
  data_entries <-
    get (fun st =>
           order_by_desc TableData.created_at
             (filter (of_schema schema) (entries st))) ;;
  ret {| status := 200; payload := Entries data_entries |}.

(** [entry.get('id', '')] *)
Definition entry_get_id (entry : json) : M json :=
  match entry with
  | JObj d =>
      ret (match dict_get "id" d with Some v => v | None => JStr "" end)
  | _ => raise (AttributeError "get")
  end.

(** [for entry in data_list:] over a list; validation lets nothing else
    through. *)
Definition iterate (data_list : json) : M (list json) :=
  match data_list with
  | JArr items => ret items
  | _ => raise (TypeError "not iterable")
  end.

(** The body of the loop of [populate], for the entries still to come:
    the rows created, in order. *)
Fixpoint create_entries (schema : TableSchema.t) (source_service : string)
    (data_list : list json) : M (list TableData.t) :=
  match data_list with
  | [] => ret []
  | entry :: rest =>
      source_id <- entry_get_id entry ;;
      table_data <- TableData_create schema entry source_service source_id ;;
      created_entries <- create_entries schema source_service rest ;;
      ret (table_data :: created_entries)
  end.

(** The [populate] action. *)
Definition populate (pk : Z) (search : option string) (body : json)
    : M Response :=
  schema <- get_object search pk ;;
  match PopulateTableSerializer body with
  | inl errors => ret {| status := 400; payload := FieldErrors errors |}
  | inr (source_service, data_list) =>
      try_except
        (created_entries <-
           atomic B (items <- iterate data_list ;;
                     create_entries schema source_service items) ;;
         let count := Z.of_nat (List.length created_entries) in
         ret {| status := 201;
                payload :=
                  Created ("Успешно создано " ++ Py.str_of_int count
                           ++ " записей")
                    count created_entries |})
        (fun e =>
           ret {| status := 500;
                  payload :=
                    ErrorText ("Ошибка при создании записей: "
                               ++ exn_str e) |})
  end.

(** The [clear_data] action. *)
Definition clear_data (pk : Z) (search : option string) : M Response :=
  schema <- get_object search pk ;;
  deleted_count <-
    get (fun st => List.length (filter (of_schema schema) (entries st))) ;;
  delete_entries (of_schema schema) ;;;
  ret {| status := 200;
         payload :=
           MessageText
             ("Удалено " ++ Py.str_of_int (Z.of_nat deleted_count)
              ++ " записей из схемы " ++ Py.dquote
              ++ TableSchema.name schema ++ Py.dquote) |}.

(** [ModelViewSet.create] for schemas. *)
Definition TableSchemaViewSet_create (body : json) : M Response :=
  st <- get (fun st => st) ;;
  match TableSchemaSerializer st body with
  | inl errors => raise (ValidationError errors)
  | inr v =>
      row <- TableSchema_create v ;;
      ret {| status := 201; payload := Schema row |}
  end.

(** *** [TableDataViewSet] *)

(** [get_queryset]: newest first, narrowed by [?schema=] and
    [?source_service=] when given and not empty. *)
Definition TableDataViewSet_get_queryset (schema_id : option Z)
    (source_service : option string) (st : State) : list TableData.t :=
  let queryset := order_by_desc TableData.created_at (entries st) in
  let queryset :=
    match schema_id with
    | Some pk => filter (fun row => TableData.schema row =? pk) queryset
    | None => queryset
    end in
  match source_service with
  | Some s =>
      if String.eqb s "" then queryset
      else filter (fun row => text_eq B (TableData.source_service row) s) queryset
  | None => queryset
  end.








Definition TableDataViewSet_list (schema_id : option Z)
    (source_service : option string) : M Response :=
  rows <- get (TableDataViewSet_get_queryset schema_id source_service) ;;
  ret {| status := 200; payload := Entries rows |}.

(** What the framework answers for a view: the view's response, 404 for
    [Http404], 400 with the errors for a [ValidationError]; any other
    exception leaves the view unhandled (a server error). *)
Definition respond (view : M Response) (st : State) : Response * State :=
  match view st with
  | (Ok r, st') => (r, st')
  | (Raise Http404, st') => ({| status := 404; payload := NotFound |}, st')
  | (Raise (ValidationError errors), st') =>
      ({| status := 400; payload := FieldErrors errors |}, st')
  | (Raise _, st') => ({| status := 500; payload := ServerError |}, st')
  end.

End Api.
End MainApp.

(* --------------------------------------------------------------------- *)
(** ** Producer services: values, dates and the network *)
(* --------------------------------------------------------------------- *)

Module Producer.

(** A [decimal.Decimal]: [unscaled * 10 ^ exponent]. *)
Record decimal : Type := { unscaled : Z; exponent : Z }.

(** [bool(d)]: a Decimal is true when it is not zero. *)
Definition decimal_truthy (d : decimal) : bool := negb (unscaled d =? 0).

(** The values [to_table_data] puts in a record. *)
Inductive pyval : Type :=
| PNone
| PBool (b : bool)
| PInt (z : Z)
| PFloat (f : float)
| PStr (s : string)
| PDecimal (d : decimal).

(** The primitives of a JSON document: everything but a [Decimal]. *)
Definition is_primitive (v : pyval) : bool :=
  match v with
  | PDecimal _ => false
  | _ => true
  end.

Definition is_float (v : pyval) : bool :=
  match v with
  | PFloat _ => true
  | _ => false
  end.

Definition record := list (string * pyval).

Fixpoint lookup (k : string) (r : record) : option pyval :=
  match r with
  | [] => None
  | (k', v) :: rest => if String.eqb k k' then Some v else lookup k rest
  end.

(** Decimal arithmetic and the conversion to a float, as the Python
    runtime does them (under the current decimal context). *)
Record Arithmetic : Type := {
  float_of_decimal : decimal -> float;            (* float(d) *)
  decimal_sub : decimal -> decimal -> decimal;    (* a - b *)
  decimal_div : decimal -> decimal -> decimal;    (* a / b *)
  decimal_mul_int : decimal -> Z -> decimal;      (* a * n *)
  decimal_round : decimal -> Z -> decimal         (* round(a, n) *)
}.

(** [datetime.date]: years 1 to 9999. *)
Record date : Type := { year : Z; month : Z; day : Z }.

Definition valid_date (d : date) : Prop :=
  1 <= year d <= 9999 /\ 1 <= month d <= 12 /\ 1 <= day d <= 31.

(** [datetime.datetime]; [utcoffset] in minutes, [None] when naive. *)
Record datetime : Type := {
  on : date;
  hour : Z;
  minute : Z;
  second : Z;
  microsecond : Z;
  utcoffset : option Z
}.

Definition valid_datetime (t : datetime) : Prop :=
  valid_date (on t) /\ 0 <= hour t <= 23 /\ 0 <= minute t <= 59
  /\ 0 <= second t <= 59 /\ 0 <= microsecond t <= 999999
  /\ match utcoffset t with
     | Some m => -1440 < m < 1440
     | None => True
     end.

(** The decimal digit [z mod 10] as a character. *)
Definition digit (z : Z) : ascii := ascii_of_N (48 + Z.to_N (z mod 10)).

(** ["%0<width>d" % z] for [0 <= z < 10 ^ width]. *)
Fixpoint zero_padded (width : nat) (z : Z) : string :=
  match width with
  | O => ""
  | S w => zero_padded w (z / 10) ++ String (digit z) ""
  end.

(** [date.isoformat()]: [YYYY-MM-DD]. *)
Definition date_isoformat (d : date) : string :=
  zero_padded 4 (year d) ++ "-" ++ zero_padded 2 (month d) ++ "-"
  ++ zero_padded 2 (day d).

(** [datetime.isoformat()]: [YYYY-MM-DDTHH:MM:SS], then [.ffffff] when the
    microseconds are not zero, then [+HH:MM] or [-HH:MM] when aware. *)
Definition datetime_isoformat (t : datetime) : string :=
  date_isoformat (on t) ++ "T" ++ zero_padded 2 (hour t) ++ ":"
  ++ zero_padded 2 (minute t) ++ ":" ++ zero_padded 2 (second t)
  ++ (if microsecond t =? 0 then "" else "." ++ zero_padded 6 (microsecond t))
  ++ match utcoffset t with
     | None => ""
     | Some m =>
         (if m <? 0 then "-" else "+") ++ zero_padded 2 (Z.abs m / 60)
         ++ ":" ++ zero_padded 2 (Z.abs m mod 60)
     end.

Definition hyphen : ascii := ascii_of_nat 45.
Definition colon : ascii := ascii_of_nat 58.
Definition period : ascii := ascii_of_nat 46.
Definition plus_sign : ascii := ascii_of_nat 43.
Definition letter_T : ascii := ascii_of_nat 84.

(** The characters [datetime.isoformat()] gives to the microseconds and to
    the offset. *)
Definition fraction_chars (us : Z) : list ascii :=
  if us =? 0 then []
  else [period; digit (us / 10 / 10 / 10 / 10 / 10);
        digit (us / 10 / 10 / 10 / 10); digit (us / 10 / 10 / 10);
        digit (us / 10 / 10); digit (us / 10); digit us].

Definition offset_chars (offset : option Z) : list ascii :=
  match offset with
  | None => []
  | Some m =>
      [if m <? 0 then hyphen else plus_sign;
       digit (Z.abs m / 60 / 10); digit (Z.abs m / 60); colon;
       digit (Z.abs m mod 60 / 10); digit (Z.abs m mod 60)]
  end.

(** Reading ISO 8601 back: the value of a run of decimal digits. *)
Definition digit_value (c : ascii) : option Z :=
  let n := N_of_ascii c in
  if ((48 <=? n) && (n <=? 57))%N then Some (Z.of_N n - 48) else None.

Fixpoint number_from (acc : Z) (s : list ascii) : option Z :=
  match s with
  | [] => Some acc
  | c :: r =>
      match digit_value c with
      | Some v => number_from (10 * acc + v) r
      | None => None
      end
  end.

Definition number (s : list ascii) : option Z :=
  match s with
  | [] => None
  | _ => number_from 0 s
  end.

(** The calendar date an ISO 8601 extended-format string [YYYY-MM-DD]
    denotes, if it is one. *)
Definition parse_iso_date (s : string) : option date :=
  match list_ascii_of_string s with
  | [y1; y2; y3; y4; h1; m1; m2; h2; d1; d2] =>
      if Ascii.eqb h1 hyphen && Ascii.eqb h2 hyphen then
        match number [y1; y2; y3; y4], number [m1; m2], number [d1; d2] with
        | Some y, Some m, Some d =>
            if (1 <=? m) && (m <=? 12) && (1 <=? d) && (d <=? 31)
            then Some {| year := y; month := m; day := d |}
            else None
        | _, _, _ => None
        end
      else None
  | _ => None
  end.

(** The fraction of a second, when one follows: [.ffffff]. *)
Definition parse_fraction (l : list ascii) : option (Z * list ascii) :=
  match l with
  | dot :: f1 :: f2 :: f3 :: f4 :: f5 :: f6 :: rest =>
      if Ascii.eqb dot period then
        match number [f1; f2; f3; f4; f5; f6] with
        | Some us => Some (us, rest)
        | None => None
        end
      else Some (0, l)
  | _ => Some (0, l)
  end.

(** The offset from UTC in minutes, when one follows: [+HH:MM] or
    [-HH:MM]. *)
Definition parse_offset (l : list ascii) : option (option Z) :=
  match l with
  | [] => Some None
  | [sign; h1; h2; c; m1; m2] =>
      if Ascii.eqb c colon then
        match number [h1; h2], number [m1; m2] with
        | Some h, Some m =>
            if Ascii.eqb sign plus_sign then Some (Some (h * 60 + m))
            else if Ascii.eqb sign hyphen then Some (Some (- (h * 60 + m)))
            else None
        | _, _ => None
        end
      else None
  | _ => None
  end.

(** The date and time an ISO 8601 extended-format string
    [YYYY-MM-DDTHH:MM:SS[.ffffff][+HH:MM]] denotes, if it is one. *)
Definition parse_iso_datetime (s : string) : option datetime :=
  match list_ascii_of_string s with
  | y1 :: y2 :: y3 :: y4 :: a :: m1 :: m2 :: b :: d1 :: d2 :: t
    :: h1 :: h2 :: c1 :: n1 :: n2 :: c2 :: s1 :: s2 :: rest =>
      if Ascii.eqb t letter_T && Ascii.eqb c1 colon && Ascii.eqb c2 colon then
        match parse_iso_date
                (string_of_list_ascii [y1; y2; y3; y4; a; m1; m2; b; d1; d2]),
              number [h1; h2], number [n1; n2], number [s1; s2],
              parse_fraction rest with
        | Some d, Some h, Some n, Some sec, Some (us, rest') =>
            match parse_offset rest' with
            | Some offset =>
                if (h <=? 23) && (n <=? 59) && (sec <=? 59) then
                  Some {| on := d; hour := h; minute := n; second := sec;
                          microsecond := us; utcoffset := offset |}
                else None
            | None => None
            end
        | _, _, _, _, _ => None
        end
      else None
  | _ => None
  end.

(** A key that orders datetimes as instants (months and days are given
    room enough, the offset is taken off). *)
Definition instant (t : datetime) : Z :=
  ((((((year (on t) * 12 + month (on t)) * 31 + day (on t)) * 24 + hour t) * 60
      + minute t
      - match utcoffset t with Some m => m | None => 0 end) * 60
    + second t) * 1000000)
  + microsecond t.

(** [get_FOO_display()]: the label of the stored code, the code itself
    when the choices do not list it. *)
Fixpoint get_display (choices : list (string * string)) (value : string)
    : string :=
  match choices with
  | [] => value
  | (code, label) :: rest =>
      if String.eqb value code then label else get_display rest value
  end.

(** *** The HTTP client *)

(** The body [requests.post(url, json=..., timeout=...)] sends. *)
Record request : Type := {
  url : string;
  source_service : string;
  data : list record;
  timeout : Z
}.

(** What a call raises: the [requests.RequestException]s, or something
    else. *)
Inductive failure : Type :=
| ConnectionError (text : string)
| ConnectTimeout (text : string)
| ReadTimeout (text : string)
| RequestException (text : string)
| OtherException (text : string).

Definition is_RequestException (e : failure) : bool :=
  match e with
  | OtherException _ => false
  | _ => true
  end.

Definition failure_str (e : failure) : string :=
  match e with
  | ConnectionError t | ConnectTimeout t | ReadTimeout t
  | RequestException t | OtherException t => t
  end.

Inductive reply : Type :=
| Responded (status_code : Z) (text : string)
| Raised (e : failure).

(** The aggregator as the producer sees it: what each request meets. *)
Definition Remote := request -> reply.

(** The producer's side effects: the requests sent, oldest first, and what
    was printed. *)
Record Effects : Type := { sent : list request; printed : list string }.

Definition requests_post (remote : Remote) (rq : request) (fx : Effects)
    : reply * Effects :=
  (remote rq, {| sent := (sent fx ++ [rq])%list; printed := printed fx |}).

Definition print (line : string) (fx : Effects) : Effects :=
  {| sent := sent fx; printed := (printed fx ++ [line])%list |}.

(** The outcome of a push, as the specification classifies it. *)
Inductive classification : Type :=
| Success
| Rejected (status_code : Z) (detail : string)
| Unavailable.

End Producer.

(* --------------------------------------------------------------------- *)
(** ** user_service (users/models.py, api/serializers.py, api/views.py) *)
(* --------------------------------------------------------------------- *)

Module UserService.
Import Producer.

Module User.
Record t : Type := {
  id : Z;
  username : string;
  email : string;
  first_name : string;
  last_name : string;
  department : string;          (* choices=DEPARTMENT_CHOICES *)
  position : string;            (* choices=POSITION_CHOICES *)
  salary : option decimal;      (* null=True *)
  hire_date : date;
  is_active : bool;
  created_at : datetime;
  updated_at : datetime
}.
End User.

Definition DEPARTMENT_CHOICES : list (string * string) :=
  [("IT", "IT отдел");
   ("HR", "Отдел кадров");
   ("MARKETING", "Маркетинг");
   ("SALES", "Продажи");
   ("FINANCE", "Финансы");
   ("LEGAL", "Юридический отдел")].

Definition POSITION_CHOICES : list (string * string) :=
  [("JUNIOR_DEV", "Junior разработчик");
   ("SENIOR_DEV", "Senior разработчик");
   ("TEAM_LEAD", "Тимлид");
   ("MANAGER", "Менеджер");
   ("DIRECTOR", "Директор");
   ("SPECIALIST", "Специалист");
   ("ANALYST", "Аналитик")].

(** [User.full_name] *)
Definition full_name (self : User.t) : string :=
  User.first_name self ++ " " ++ User.last_name self.

(** The bodies of the service's responses. *)
Inductive content : Type :=
| FieldErrors (errors : Drf.error_dict)
| NotFound
| ErrorText (error : string)                        (* {'error': ...} *)
| ErrorDetails (error : string) (details : string)  (* error and details *)
| Synced (message : string) (count : Z) (schema_id : Z)
| MessageText (message : string)
| Created (user : User.t).

Record Response : Type := { status : Z; payload : content }.

(** What [UserCreateSerializer] hands to [create]. *)
Record validated_data : Type := {
  v_username : string;
  v_email : string;
  v_first_name : string;
  v_last_name : string;
  v_department : string;
  v_position : string;
  v_salary : option decimal;
  v_hire_date : date
}.

Section Service.
Context (R : Runtime) (A : Arithmetic) (CORE_SERVICE_URL : string)
  (remote : Remote).

(** [User.to_table_data] *)
Definition to_table_data (self : User.t) : record :=
  [("id", PStr (Py.str_of_int (User.id self)));
   ("full_name", PStr (full_name self));
   ("username", PStr (User.username self));
   ("email", PStr (User.email self));
   ("department", PStr (get_display DEPARTMENT_CHOICES (User.department self)));
   ("position", PStr (get_display POSITION_CHOICES (User.position self)));
   ("salary",
    match User.salary self with
    | Some d => if decimal_truthy d then PFloat (float_of_decimal A d) else PNone
    | None => PNone
    end);
   ("hire_date", PStr (date_isoformat (User.hire_date self)));
   ("is_active", PBool (User.is_active self))].

(** [User.sync_to_core_service]: [True] for a 201, [False] for any other
    answer and for any exception, which is printed. *)
Definition sync_to_core_service (self : User.t) (fx : Effects)
    : bool * Effects :=
  let data := to_table_data self in
  match requests_post remote
          {| url := CORE_SERVICE_URL ++ "/api/schemas/1/populate/";
             source_service := "user_service";
             data := [data];
             timeout := 5 |} fx with
  | (Responded status_code _, fx') => (status_code =? 201, fx')
  | (Raised e, fx') =>
      (false,
       print ("Ошибка синхронизации с Core Service: " ++ failure_str e) fx')
  end.

(** [SyncToCoreSerializer(data=body).is_valid()]: the errors, or
    [schema_id] and [user_ids]. *)
Definition SyncToCoreSerializer (body : json)
    : Drf.error_dict + (Z * option (list Z)) :=
  match Drf.body_fields body with
  | inl errors => inl errors
  | inr d =>
      let schema_id :=
        Drf.IntegerField_run_validation R 1 (dict_get "schema_id" d) in
      let user_ids :=
        Drf.IntegerListField_run_validation R (dict_get "user_ids" d) in
      match (Drf.field_errors "schema_id" schema_id
             ++ Drf.field_errors "user_ids" user_ids)%list, schema_id with
      | [], Drf.Valid pk => inr (pk, Drf.value_of user_ids)
      | errors, _ => inl errors
      end
  end.

(** [User.objects.filter(...)] under the model's ordering, newest
    first. *)
Definition active_users (user_ids : option (list Z)) (users : list User.t)
    : list User.t :=
  Db.order_by_desc (fun u => instant (User.created_at u))
    (match user_ids with
     | Some (pk :: pks) =>
         filter (fun u => existsb (Z.eqb (User.id u)) (pk :: pks)
                          && User.is_active u) users
     | Some [] | None => filter User.is_active users
     end).

(** [UserViewSet.sync_to_core]: the response, or the exception the view
    lets through. *)
Definition sync_to_core (users : list User.t) (body : json) (fx : Effects)
    : (Response + failure) * Effects :=
  match SyncToCoreSerializer body with
  | inl errors => (inl {| status := 400; payload := FieldErrors errors |}, fx)
  | inr (schema_id, user_ids) =>
      match active_users user_ids users with
      | [] =>
          (inl {| status := 404;
                  payload :=
                    ErrorText "Не найдено пользователей для синхронизации" |},
           fx)
      | selected =>
          let data_list := map to_table_data selected in
          let count := Z.of_nat (List.length data_list) in
          match requests_post remote
                  {| url := CORE_SERVICE_URL ++ "/api/schemas/"
                            ++ Py.str_of_int schema_id ++ "/populate/";
                     source_service := "user_service";
                     data := data_list;
                     timeout := 10 |} fx with
          | (Responded status_code text, fx') =>
              if status_code =? 201 then
                (inl {| status := 200;
                        payload :=
                          Synced ("Синхронизировано " ++ Py.str_of_int count
                                  ++ " пользователей")
                            count schema_id |}, fx')
              else
                (inl {| status := 502;
                        payload :=
                          ErrorDetails
                            ("Ошибка Core Service: "
                             ++ Py.str_of_int status_code) text |}, fx')
          | (Raised e, fx') =>
              if is_RequestException e then
                (inl {| status := 503;
                        payload :=
                          ErrorText
                            ("Не удалось подключиться к Core Service: "
                             ++ failure_str e) |}, fx')
              else (inr e, fx')
          end
      end
  end.

(** [UserViewSet.sync_single] *)
Definition sync_single (users : list User.t) (pk : Z) (fx : Effects)
    : Response * Effects :=
  match find (fun u => User.id u =? pk)
          (Db.order_by_desc (fun u => instant (User.created_at u)) users) with
  | None => ({| status := 404; payload := NotFound |}, fx)
  | Some user =>
      let (success, fx') := sync_to_core_service user fx in
      if success then
        ({| status := 200;
            payload :=
              MessageText ("Пользователь " ++ full_name user
                           ++ " синхронизирован") |}, fx')
      else
        ({| status := 502; payload := ErrorText "Ошибка синхронизации" |}, fx')
  end.

(** [UserCreateSerializer.create]: the row is written, then pushed; the
    result of the push is dropped. *)
Definition UserCreateSerializer_create (next_id : Z) (now : datetime)
    (v : validated_data) (users : list User.t) (fx : Effects)
    : User.t * list User.t * Effects :=
  let user :=
    {| User.id := next_id;
       User.username := v_username v;
       User.email := v_email v;
       User.first_name := v_first_name v;
       User.last_name := v_last_name v;
       User.department := v_department v;
       User.position := v_position v;
       User.salary := v_salary v;
       User.hire_date := v_hire_date v;
       User.is_active := true;
       User.created_at := now;
       User.updated_at := now |} in
  let (_, fx') := sync_to_core_service user fx in
  (user, (users ++ [user])%list, fx').

End Service.
End UserService.

(* --------------------------------------------------------------------- *)
(** ** product_service (products/models.py) *)
(* --------------------------------------------------------------------- *)

Module ProductService.
Import Producer.

Inductive Category : Type :=
  mkCategory { category_name : string; parent : option Category }.

(** [Category.get_full_path] *)
Fixpoint get_full_path (self : Category) : string :=
  match self with
  | mkCategory name (Some p) => get_full_path p ++ " > " ++ name
  | mkCategory name None => name
  end.

Record Supplier : Type := { supplier_name : string }.

Module Product.
Record t : Type := {
  id : Z;
  name : string;
  sku : string;
  barcode : option string;          (* null=True *)
  description : string;
  category : Category;
  supplier : option Supplier;       (* null=True *)
  cost_price : decimal;
  selling_price : decimal;
  discount_price : option decimal;  (* null=True *)
  stock_quantity : Z;
  min_stock_level : Z;
  max_stock_level : option Z;
  weight : option decimal;          (* null=True *)
  dimensions : string;
  status : string;                  (* choices=STATUS_CHOICES *)
  is_featured : bool;
  created_at : datetime;
  updated_at : datetime
}.
End Product.

Definition STATUS_CHOICES : list (string * string) :=
  [("ACTIVE", "Активен");
   ("INACTIVE", "Неактивен");
   ("DISCONTINUED", "Снят с производства");
   ("OUT_OF_STOCK", "Нет в наличии")].

(** [Product.is_low_stock] and [Product.stock_status] *)
Definition is_low_stock (self : Product.t) : bool :=
  Product.stock_quantity self <=? Product.min_stock_level self.

Definition stock_status (self : Product.t) : string :=
  if Product.stock_quantity self =? 0 then "Нет в наличии"
  else if is_low_stock self then "Заканчивается"
  else "В наличии".

(** [Product.current_price] *)
Definition current_price (self : Product.t) : decimal :=
  match Product.discount_price self with
  | Some d => if decimal_truthy d then d else Product.selling_price self
  | None => Product.selling_price self
  end.

Section Service.
Context (A : Arithmetic).

(** [Product.profit_margin]: a [Decimal], or the [int] 0 when a price is
    zero. *)
Definition profit_margin (self : Product.t) : pyval :=
  if decimal_truthy (Product.cost_price self)
     && decimal_truthy (Product.selling_price self)
  then
    PDecimal
      (decimal_mul_int A
         (decimal_div A
            (decimal_sub A (Product.selling_price self)
               (Product.cost_price self))
            (Product.selling_price self))
         100)
  else PInt 0.

(** [round(x, 2)]: a [Decimal] stays one, an [int] is unchanged. *)
Definition round2 (x : pyval) : pyval :=
  match x with
  | PDecimal d => PDecimal (decimal_round A d 2)
  | _ => x
  end.

(** [Product.to_table_data] *)
Definition to_table_data (self : Product.t) : record :=
  [("id", PStr (Py.str_of_int (Product.id self)));
   ("name", PStr (Product.name self));
   ("sku", PStr (Product.sku self));
   ("barcode",
    PStr (match Product.barcode self with Some b => b | None => "" end));
   ("category", PStr (get_full_path (Product.category self)));
   ("supplier",
    PStr (match Product.supplier self with
          | Some s => supplier_name s
          | None => ""
          end));
   ("cost_price", PFloat (float_of_decimal A (Product.cost_price self)));
   ("selling_price", PFloat (float_of_decimal A (Product.selling_price self)));
   ("current_price", PFloat (float_of_decimal A (current_price self)));
   ("profit_margin", round2 (profit_margin self));
   ("stock_quantity", PInt (Product.stock_quantity self));
   ("stock_status", PStr (stock_status self));
   ("min_stock_level", PInt (Product.min_stock_level self));
   ("weight",
    match Product.weight self with
    | Some w => if decimal_truthy w then PFloat (float_of_decimal A w) else PNone
    | None => PNone
    end);
   ("dimensions", PStr (Product.dimensions self));
   ("status", PStr (get_display STATUS_CHOICES (Product.status self)));
   ("is_featured", PBool (Product.is_featured self));
   ("created_at", PStr (datetime_isoformat (Product.created_at self)))].

End Service.
End ProductService.

(* --------------------------------------------------------------------- *)
(** ** A reference deployment and sample data *)
(* --------------------------------------------------------------------- *)

(** A platform to run the definitions on.  The backend behaves as SQLite
    does (text compared byte by byte, [LIKE] folding ASCII case, nothing
    refused beyond the declared constraints, sequences rolled back with the
    transaction); the entries of the runtime and the arithmetic are
    stand-ins, which no sample below exercises. *)
Module Reference.
Import Db Producer.

Definition lower (c : ascii) : ascii :=
  let n := N_of_ascii c in
  if ((65 <=? n) && (n <=? 90))%N then ascii_of_N (n + 32) else c.

Fixpoint starts_with (needle s : list ascii) : bool :=
  match needle, s with
  | [], _ => true
  | a :: r, b :: t => Ascii.eqb (lower a) (lower b) && starts_with r t
  | _ :: _, [] => false
  end.

Fixpoint contains (needle s : list ascii) : bool :=
  starts_with needle s
  || match s with
     | [] => false
     | _ :: t => contains needle t
     end.

Definition runtime : Runtime :=
  {| float_repr := fun _ => "0.0";
     container_str := fun _ => "[]";
     pk_of_json := fun _ => None;
     bool_of_str := fun _ => None;
     int_of_json := fun _ => None |}.

Definition sqlite : Backend :=
  {| icontains :=
       fun needle value =>
         contains (list_ascii_of_string needle) (list_ascii_of_string value);
     text_eq := String.eqb;
     refuses_data := fun _ => None;
     refuses_schema := fun _ => None;
     not_null_error := fun column => "NOT NULL constraint failed: " ++ column;
     sequences_transactional := true |}.

Definition arithmetic : Arithmetic :=
  {| float_of_decimal :=
       fun d => PrimFloat.of_uint63 (Uint63.of_Z (unscaled d));
     decimal_sub := fun a _ => a;
     decimal_div := fun a _ => a;
     decimal_mul_int := fun a _ => a;
     decimal_round := fun a _ => a |}.

(** The scenario of the specification: the schema [employees], active or
    deactivated, and a record under it. *)
Definition employees (active : bool) : TableSchema.t :=
  {| TableSchema.id := 1;
     TableSchema.name := "employees";
     TableSchema.description := "";
     TableSchema.fields_config :=
       JObj [("fields",
              JArr [JObj [("name", JStr "full_name"); ("type", JStr "string")];
                    JObj [("name", JStr "email"); ("type", JStr "string")]])];
     TableSchema.created_at := 0;
     TableSchema.updated_at := 0;
     TableSchema.is_active := active |}.

Definition record_1 : TableData.t :=
  {| TableData.id := 1;
     TableData.schema := 1;
     TableData.data := JObj [("id", JStr "1"); ("full_name", JStr "A B")];
     TableData.source_service := "user_service";
     TableData.source_id := "1";
     TableData.created_at := 1;
     TableData.updated_at := 1 |}.



Definition empty : State :=
  {| schemas := []; entries := []; next_schema_id := 1; next_data_id := 1;
     clock := 0 |}.

Definition with_schema (active : bool) (rows : list TableData.t) : State :=
  {| schemas := [employees active]; entries := rows; next_schema_id := 2;
     next_data_id := 2; clock := 2 |}.

Definition employee : json :=
  JObj [("id", JStr "1"); ("full_name", JStr "A B"); ("email", JStr "a@b.com")].

Definition batch_fields (service : string) (items : list json) : pydict :=
  [("source_service", JStr service); ("data", JArr items)].

Definition batch (items : list json) : json :=
  JObj (batch_fields "user_service" items).

(** An object whose [id] is [null]. *)
Definition anonymous : json := JObj [("id", JNull)].

(** Fifty letters and a trailing space. *)
Definition padded_service : string :=
  "aaaaaaaaaaaaaaaaaaaaaaaaaaaaaaaaaaaaaaaaaaaaaaaaaa ".

End Reference.

(* --------------------------------------------------------------------- *)
(** ** The vocabulary of the properties proved below *)
(* --------------------------------------------------------------------- *)

(** [P] holds whatever the platform: a statement about every runtime,
    backend or arithmetic, kept closed. *)
Definition on_every {T : Type} (P : T -> Prop) : Prop := forall x, P x.

Module Properties.
Import Drf Db MainApp.
Local Open Scope db_scope.

Section Core.
Context (R : Runtime) (B : Backend).

(** The schemas a request of [TableSchemaViewSet] can address: the
    active ones, matching [?search=] when it is given and not empty. *)
Definition addressable (search : option string) (row : TableSchema.t)
    : bool :=
  TableSchema.is_active row
  && match search with
     | Some s => String.eqb s "" || icontains B s (TableSchema.name row)
     | None => true
     end.

(** The [source_id] of the record made from [entry]: [str()] of the
    value under [id], the empty string without that key. *)
Definition source_id_for (entry : json) : string :=
  match entry with
  | JObj kv =>
      match dict_get "id" kv with
      | Some v => py_str R v
      | None => ""
      end
  | _ => ""
  end.

(** [row] is the record of [entry] under schema [pk], pushed by
    [service]. *)
Definition stored_as (pk : Z) (service : string) (entry : json)
    (row : TableData.t) : Prop :=
  TableData.schema row = pk /\ TableData.data row = entry
  /\ TableData.source_service row = service
  /\ TableData.source_id row = source_id_for entry.

(** One turn of the loop of [populate]. *)
Definition persist (schema : TableSchema.t) (service : string)
    (entry : json) : M TableData.t :=
  source_id <- entry_get_id entry ;;
  TableData_create R B schema entry service source_id.

(** Persisting some record of the batch fails: the records before it
    were created, and creating this one raises. *)
Definition persisting_fails (schema : TableSchema.t) (service : string)
    (items : list json) (st : State) : Prop :=
  exists before entry after created st1 e st2,
    items = (before ++ entry :: after)%list
    /\ create_entries R B schema service before st = (Ok created, st1)
    /\ persist schema service entry st1 = (Raise e, st2).

(** The four ways a populate call ends: with its response and the state
    it leaves. *)
Inductive populate_ends (search : option string) (pk : Z) (body : json)
    (st : State) : Response -> State -> Prop :=
| ends_not_found :
    get_object B search pk st = (Raise Http404, st) ->
    populate_ends search pk body st {| status := 404; payload := NotFound |} st
| ends_invalid schema errors :
    get_object B search pk st = (Ok schema, st) ->
    PopulateTableSerializer R body = inl errors ->
    populate_ends search pk body st
      {| status := 400; payload := FieldErrors errors |} st
| ends_created schema service items created st' :
    get_object B search pk st = (Ok schema, st) ->
    PopulateTableSerializer R body = inr (service, JArr items) ->
    create_entries R B schema service items st = (Ok created, st') ->
    populate_ends search pk body st
      {| status := 201;
         payload :=
           Created ("Успешно создано "
                    ++ Py.str_of_int (Z.of_nat (List.length created))
                    ++ " записей")
             (Z.of_nat (List.length created)) created |} st'
| ends_rolled_back schema service items e st' :
    get_object B search pk st = (Ok schema, st) ->
    PopulateTableSerializer R body = inr (service, JArr items) ->
    create_entries R B schema service items st = (Raise e, st') ->
    populate_ends search pk body st
      {| status := 500;
         payload := ErrorText ("Ошибка при создании записей: " ++ exn_str e) |}
      (rollback B st st').


(** The ways the [data] of a populate body can be malformed: not a list
    (or absent), empty, or with an element that is no object. *)
Definition data_malformed (d : pydict) : Prop :=
  (forall items, dict_get "data" d <> Some (JArr items))
  \/ dict_get "data" d = Some (JArr [])
  \/ (exists items,
         dict_get "data" d = Some (JArr items)
         /\ forallb is_dict items = false).

(** [source_service] is absent, or a string longer than 50 characters
    once trimmed. *)
Definition service_malformed (d : pydict) : Prop :=
  dict_get "source_service" d = None
  \/ (exists s,
         dict_get "source_service" d = Some (JStr s)
         /\ (50 < Py.len (Py.strip s))%nat).

(** The same with the length of the string as sent. *)
Definition service_too_long (d : pydict) : Prop :=
  exists s,
    dict_get "source_service" d = Some (JStr s) /\ (50 < Py.len s)%nat.

(** The test [CharField.run_validation] starts with: the value, as a
    string, is empty once trimmed. *)
Definition blank (data : option json) : bool :=
  match data with
  | Some v => String.eqb (Py.strip (py_str R v)) ""
  | None => false
  end.







End Core.
End Properties.

(* --------------------------------------------------------------------- *)
(** ** The vocabulary of the properties of the producers *)
(* --------------------------------------------------------------------- *)

Module SyncProperties.
Import Producer UserService.

(** The class the specification gives to what a push meets: a 201 is a
    success, any other answer a rejection with its status and text, a
    [RequestException] (a connection failure or a timeout among them) an
    unavailability; it says nothing of other exceptions. *)
Definition expected (r : reply) : option classification :=
  match r with
  | Responded status_code text =>
      Some (if status_code =? 201 then Success else Rejected status_code text)
  | Raised e => if is_RequestException e then Some Unavailable else None
  end.

(** The response of the bulk view reports the class [c]. *)
Definition reports (resp : Response) (c : classification) : Prop :=
  match c with
  | Success =>
      status resp = 200
      /\ exists message count schema_id,
           payload resp = Synced message count schema_id
  | Rejected status_code detail =>
      resp = {| status := 502;
                payload :=
                  ErrorDetails
                    ("Ошибка Core Service: " ++ Py.str_of_int status_code)
                    detail |}
  | Unavailable => status resp = 503 /\ exists text, payload resp = ErrorText text
  end.

Section Requests.
Context (A : Arithmetic) (CORE_SERVICE_URL : string).

(** The request of a single push. *)
Definition single_request (self : User.t) : request :=
  {| url := CORE_SERVICE_URL ++ "/api/schemas/1/populate/";
     source_service := "user_service";
     data := [to_table_data A self];
     timeout := 5 |}.

(** The request of a bulk push. *)
Definition bulk_request (schema_id : Z) (selected : list User.t) : request :=
  {| url := CORE_SERVICE_URL ++ "/api/schemas/" ++ Py.str_of_int schema_id
            ++ "/populate/";
     source_service := "user_service";
     data := map (to_table_data A) selected;
     timeout := 10 |}.

End Requests.

(** The field names of the two records. *)
Definition user_fields : list string :=
  ["id"; "full_name"; "username"; "email"; "department"; "position"; "salary";
   "hire_date"; "is_active"].

Definition product_fields : list string :=
  ["id"; "name"; "sku"; "barcode"; "category"; "supplier"; "cost_price";
   "selling_price"; "current_price"; "profit_margin"; "stock_quantity";
   "stock_status"; "min_stock_level"; "weight"; "dimensions"; "status";
   "is_featured"; "created_at"].

(** The value under [field] is the label the choices give to [code], and
    not the code. *)
Definition shows_label (choices : list (string * string)) (code : string)
    (r : record) (field : string) : Prop :=
  exists label,
    lookup field r = Some (PStr label) /\ In (code, label) choices
    /\ label <> code.

End SyncProperties.

Module Samples.
Import Producer UserService ProductService.

Definition new_year : datetime :=
  {| on := {| year := 2024; month := 1; day := 1 |}; hour := 9; minute := 30;
     second := 0; microsecond := 0; utcoffset := Some 0 |}.

(** A user without a salary. *)
Definition alice : User.t :=
  {| User.id := 1;
     User.username := "alice";
     User.email := "a@b.com";
     User.first_name := "A";
     User.last_name := "B";
     User.department := "IT";
     User.position := "MANAGER";
     User.salary := None;
     User.hire_date := {| year := 2023; month := 2; day := 28 |};
     User.is_active := true;
     User.created_at := new_year;
     User.updated_at := new_year |}.

Definition widget : Product.t :=
  {| Product.id := 5;
     Product.name := "Widget";
     Product.sku := "W-1";
     Product.barcode := None;
     Product.description := "";
     Product.category := mkCategory "Tools" None;
     Product.supplier := None;
     Product.cost_price := {| unscaled := 1000; exponent := -2 |};
     Product.selling_price := {| unscaled := 1500; exponent := -2 |};
     Product.discount_price := None;
     Product.stock_quantity := 3;
     Product.min_stock_level := 1;
     Product.max_stock_level := None;
     Product.weight := None;
     Product.dimensions := "";
     Product.status := "ACTIVE";
     Product.is_featured := false;
     Product.created_at := new_year;
     Product.updated_at := new_year |}.

(** An aggregator that declines every batch, and one that cannot be
    reached. *)
Definition declining : Remote := fun _ => Responded 400 "bad request".

Definition unreachable : Remote :=
  fun _ => Raised (ConnectionError "connection refused").

Definition quiet : Effects := {| sent := []; printed := [] |}.

Definition core_url : string := "http://core".

End Samples.

(* ===================================================================== *)
(** * Part II: theorems                                                   *)
(* ===================================================================== *)

(* --------------------------------------------------------------------- *)
(** ** Querysets and [get_object] *)
(* --------------------------------------------------------------------- *)

Section QuerysetFacts.
Import Drf Db MainApp Properties.
Context (B : Backend).

Lemma In_insert_desc {A} (key : A -> Z) (x y : A) (l : list A) :
  In y (insert_desc key x l) <-> y = x \/ In y l.
Proof.
  induction l as [|z l IH]; simpl.
  - intuition congruence.
  - destruct (key z <=? key x); simpl; [intuition congruence|].
    rewrite IH. intuition congruence.
Qed.

Lemma In_order_by_desc {A} (key : A -> Z) (y : A) (l : list A) :
  In y (order_by_desc key l) <-> In y l.
Proof.
  unfold order_by_desc. induction l as [|x l IH]; simpl; [tauto|].
  rewrite In_insert_desc, IH. intuition congruence.
Qed.

Lemma order_by_desc_nil {A} (key : A -> Z) (l : list A) :
  l = [] -> order_by_desc key l = [].
Proof. intros ->. reflexivity. Qed.

Lemma In_get_queryset search st row :
  In row (get_queryset B search st)
  <-> In row (schemas st) /\ addressable B search row = true.
Proof.
  unfold get_queryset, addressable. rewrite In_order_by_desc.
  destruct search as [s|].
  - destruct (String.eqb s ""); simpl.
    + rewrite filter_In, andb_true_r. tauto.
    + rewrite !filter_In. rewrite andb_true_iff. tauto.
  - rewrite filter_In, andb_true_r. tauto.
Qed.

Lemma get_object_Ok search pk st row st' :
  get_object B search pk st = (Ok row, st') ->
  st' = st /\ In row (schemas st) /\ TableSchema.id row = pk
  /\ addressable B search row = true.
Proof.
  unfold get_object. intros H.
  destruct (find _ _) as [r|] eqn:F; inversion H; subst.
  apply find_some in F. destruct F as [Hin Hid].
  apply In_get_queryset in Hin. apply Z.eqb_eq in Hid. tauto.
Qed.

Lemma get_object_cases search pk st :
  (exists row, get_object B search pk st = (Ok row, st))
  \/ get_object B search pk st = (Raise Http404, st).
Proof.
  unfold get_object. destruct (find _ _); eauto.
Qed.

Lemma get_object_404_iff search pk st :
  get_object B search pk st = (Raise Http404, st)
  <-> forall row, In row (schemas st) -> TableSchema.id row = pk ->
                  addressable B search row = false.
Proof.
  unfold get_object. split.
  - destruct (find _ _) eqn:F; [discriminate|]. intros _ row Hin Hid.
    destruct (addressable B search row) eqn:Ha; [|reflexivity].
    eapply find_none in F; [|apply In_get_queryset; eauto].
    simpl in F. apply Z.eqb_neq in F. contradiction.
  - intros H. destruct (find _ _) as [r|] eqn:F; [|reflexivity].
    apply find_some in F. destruct F as [Hin Hid].
    apply In_get_queryset in Hin. apply Z.eqb_eq in Hid.
    destruct Hin as [Hin Ha]. rewrite (H r Hin Hid) in Ha. discriminate.
Qed.

(** [get_object] reads the table of schemas only. *)
Lemma get_object_same_schemas search pk st st' row :
  schemas st' = schemas st ->
  get_object B search pk st = (Ok row, st) ->
  get_object B search pk st' = (Ok row, st').
Proof.
  unfold get_object, get_queryset. intros ->.
  destruct (find _ _); intros H; inversion H; subst; reflexivity.
Qed.

End QuerysetFacts.

(* --------------------------------------------------------------------- *)
(** ** The populate serializer *)
(* --------------------------------------------------------------------- *)

Section SerializerFacts.
Import Drf Db MainApp Properties.
Context (R : Runtime).


Lemma run_child_validation_ok idx items result :
  run_child_validation idx items = (result, []) ->
  result = items /\ forallb is_dict items = true.
Proof.
  revert idx result.
  induction items as [|x items IH]; intros idx result H; simpl in *.
  - inversion H. auto.
  - destruct (run_child_validation (S idx) items) as [res errs] eqn:E.
    destruct x; simpl in H; inversion H; subst.
    destruct (IH _ _ E) as [-> ->]. auto.
Qed.

Lemma run_child_validation_bad idx items :
  forallb is_dict items = false ->
  exists result e errors,
    run_child_validation idx items = (result, e :: errors).
Proof.
  revert idx. induction items as [|x items IH]; intros idx H; simpl in *.
  - discriminate.
  - destruct (run_child_validation (S idx) items) as [res errs] eqn:E.
    destruct (is_dict x) eqn:Hx; simpl in H.
    + destruct (IH (S idx) H) as (r & e & es & E').
      rewrite E in E'. inversion E'; subst.
      destruct x; try discriminate. simpl. eauto.
    + destruct x; try discriminate; simpl; eauto.
Qed.

Lemma data_field_valid v l :
  then_validate (ListField_run_validation v) validate_data = Valid l ->
  exists items,
    v = Some (JArr items) /\ l = JArr items /\ items <> []
    /\ forallb is_dict items = true.
Proof.
  intros H. destruct v as [v|]; [|discriminate].
  destruct v; try discriminate.
  unfold ListField_run_validation, validate_empty_values in H.
  destruct (run_child_validation 0 l0) as [res errs] eqn:E.
  destruct errs; [|discriminate].
  destruct (run_child_validation_ok _ _ _ E) as [-> Hall].
  unfold then_validate, validate_data in H.
  destruct l0 as [|x l0]; [discriminate|].
  cbn [List.length Nat.eqb] in H. rewrite Hall in H.
  inversion H; subst. exists (x :: l0). repeat split; auto. discriminate.
Qed.


Lemma data_field_rejects d :
  data_malformed d ->
  exists detail,
    then_validate (ListField_run_validation (dict_get "data" d)) validate_data
    = Invalid detail.
Proof.
  unfold ListField_run_validation, validate_empty_values, then_validate.
  intros [H | [H | (items & H & Hbad)]].
  - destruct (dict_get "data" d) as [v|]; [|eauto].
    destruct v; eauto. exfalso. eapply H. reflexivity.
  - rewrite H. simpl. eauto.
  - rewrite H.
    destruct (run_child_validation_bad 0 items Hbad) as (r & e & es & ->).
    eauto.
Qed.

(** What a body that passes [PopulateTableSerializer] looks like. *)
Lemma PopulateTableSerializer_valid body s l :
  PopulateTableSerializer R body = inr (s, l) ->
  exists d items,
    body = JObj d /\ dict_get "data" d = Some (JArr items) /\ l = JArr items
    /\ items <> [] /\ forallb is_dict items = true
    /\ CharField_run_validation R source_service_field
         (dict_get "source_service" d) = Valid s.
Proof.
  unfold PopulateTableSerializer. intros H.
  destruct body; simpl in H; try discriminate.
  destruct (CharField_run_validation R source_service_field _)
    as [s'| |] eqn:Hs; try discriminate.
  destruct (then_validate _ _) as [l'| |] eqn:Hd; try discriminate.
  inversion H; subst.
  destruct (data_field_valid _ _ Hd) as (items & Hv & -> & Hne & Hall).
  exists kv, items. repeat split; auto.
Qed.


End SerializerFacts.

(* --------------------------------------------------------------------- *)
(** ** Character fields *)
(* --------------------------------------------------------------------- *)

Section CharFieldFacts.
Import Drf Db MainApp Properties.
Context (R : Runtime).

Lemma len_positive_not_empty s :
  (0 < Py.len s)%nat -> String.eqb s "" = false.
Proof. destruct s; simpl; [lia|reflexivity]. Qed.

(** A value longer than the field allows is refused. *)
Lemma CharField_too_long f s n :
  max_length f = Some n -> (n < Py.len (Py.strip s))%nat ->
  exists detail, CharField_run_validation R f (Some (JStr s)) = Invalid detail.
Proof.
  intros Hm Hl. unfold CharField_run_validation. simpl.
  rewrite len_positive_not_empty by lia.
  unfold run_validators. rewrite Hm.
  apply Nat.ltb_lt in Hl. rewrite Hl.
  destruct (flat_map _ _); simpl; eauto.
Qed.

Lemma CharField_required_missing f :
  required f = true ->
  CharField_run_validation R f None = Invalid (Errors [Code "required"]).
Proof. intros H. unfold CharField_run_validation. simpl. rewrite H. reflexivity. Qed.

Lemma service_field_rejects d :
  service_malformed d ->
  exists detail,
    CharField_run_validation R source_service_field
      (dict_get "source_service" d) = Invalid detail.
Proof.
  intros [H | (s & H & Hl)]; rewrite H.
  - rewrite CharField_required_missing by reflexivity. eauto.
  - eapply CharField_too_long; [reflexivity|exact Hl].
Qed.


End CharFieldFacts.

(* --------------------------------------------------------------------- *)
(** ** The loop of [populate] *)
(* --------------------------------------------------------------------- *)

Section PopulateFacts.
Import Drf Db MainApp Properties.
Context (R : Runtime) (B : Backend).

Lemma TableData_create_Ok schema data service sid st row st' :
  TableData_create R B schema data service sid st = (Ok row, st') ->
  entries st' = (entries st ++ [row])%list /\ schemas st' = schemas st
  /\ TableData.schema row = TableSchema.id schema /\ TableData.data row = data
  /\ TableData.source_service row = service
  /\ TableData.source_id row = py_str R sid /\ sid <> JNull.
Proof.
  unfold TableData_create. intros H.
  destruct sid; try discriminate;
    (destruct (refuses_data B _); [discriminate|]);
    inversion H; subst; simpl; repeat split; auto; discriminate.
Qed.

Lemma TableData_create_Raise schema data service sid st e st' :
  TableData_create R B schema data service sid st = (Raise e, st') ->
  entries st' = entries st /\ schemas st' = schemas st.
Proof.
  unfold TableData_create. intros H.
  destruct sid; try (inversion H; subst; simpl; auto; fail);
    (destruct (refuses_data B _); inversion H; subst; simpl; auto).
Qed.


Lemma persist_Ok schema service entry st row st' :
  persist R B schema service entry st = (Ok row, st') ->
  entries st' = (entries st ++ [row])%list /\ schemas st' = schemas st
  /\ stored_as R (TableSchema.id schema) service entry row.
Proof.
  unfold persist, bind, entry_get_id. intros H.
  destruct entry; try discriminate. simpl in H.
  apply TableData_create_Ok in H.
  destruct H as (He & Hs & H1 & H2 & H3 & H4 & _).
  repeat split; auto. rewrite H4. simpl.
  destruct (dict_get "id" kv); reflexivity.
Qed.

Lemma persist_Raise schema service entry st e st' :
  persist R B schema service entry st = (Raise e, st') ->
  entries st' = entries st /\ schemas st' = schemas st.
Proof.
  unfold persist, bind, entry_get_id. intros H.
  destruct entry; try (inversion H; subst; auto; fail). simpl in H.
  eapply TableData_create_Raise; eauto.
Qed.


(** The loop, one turn at a time. *)
Lemma create_entries_cons schema service entry rest st :
  create_entries R B schema service (entry :: rest) st
  = match persist R B schema service entry st with
    | (Ok row, st1) =>
        match create_entries R B schema service rest st1 with
        | (Ok created, st2) => (Ok (row :: created), st2)
        | (Raise e, st2) => (Raise e, st2)
        end
    | (Raise e, st1) => (Raise e, st1)
    end.
Proof.
  simpl. unfold persist, bind.
  destruct (entry_get_id entry st) as [[sid|e] st0]; [|reflexivity].
  destruct (TableData_create R B schema entry service sid st0)
    as [[row|e] st1]; [|reflexivity].
  destruct (create_entries R B schema service rest st1) as [[c|e] st2];
    reflexivity.
Qed.

Lemma create_entries_Ok schema service items : forall st created st',
  create_entries R B schema service items st = (Ok created, st') ->
  entries st' = (entries st ++ created)%list /\ schemas st' = schemas st
  /\ Forall2 (stored_as R (TableSchema.id schema) service) items created.
Proof.
  induction items as [|entry rest IH]; intros st created st' H.
  - inversion H; subst. rewrite app_nil_r. auto.
  - rewrite create_entries_cons in H.
    destruct (persist R B schema service entry st) as [[row|e] st1] eqn:P;
      [|discriminate].
    destruct (create_entries R B schema service rest st1)
      as [[c|e] st2] eqn:C; [|discriminate].
    inversion H; subst.
    apply persist_Ok in P. destruct P as (P1 & P2 & P3).
    apply IH in C. destruct C as (C1 & C2 & C3).
    rewrite C1, P1, C2, P2, <- app_assoc. auto.
Qed.

(** When the loop raises, it has written a strict part of the batch. *)
Lemma create_entries_Raise schema service items : forall st e st',
  create_entries R B schema service items st = (Raise e, st') ->
  schemas st' = schemas st
  /\ exists part,
       entries st' = (entries st ++ part)%list
       /\ (List.length part < List.length items)%nat.
Proof.
  induction items as [|entry rest IH]; intros st e st' H.
  - discriminate.
  - rewrite create_entries_cons in H.
    destruct (persist R B schema service entry st) as [[row|e0] st1] eqn:P.
    + destruct (create_entries R B schema service rest st1)
        as [[c|e1] st2] eqn:C; [discriminate|]. inversion H; subst.
      apply persist_Ok in P. destruct P as (P1 & P2 & _).
      apply IH in C. destruct C as (C2 & part & C1 & Hl).
      split; [congruence|]. exists (row :: part).
      rewrite C1, P1, <- app_assoc. simpl. split; [reflexivity|lia].
    + inversion H; subst. apply persist_Raise in P. destruct P as [P1 P2].
      split; [assumption|]. exists []. rewrite app_nil_r. simpl.
      split; [assumption|lia].
Qed.

Lemma persisting_fails_raises schema service items st :
  persisting_fails R B schema service items st ->
  exists e st', create_entries R B schema service items st = (Raise e, st').
Proof.
  intros (before & entry & after & created & st1 & e & st2 & -> & Hb & Hp).
  revert st created Hb.
  induction before as [|x before IH]; intros st created Hb.
  - inversion Hb; subst. simpl app. rewrite create_entries_cons, Hp. eauto.
  - rewrite create_entries_cons in Hb. simpl app. rewrite create_entries_cons.
    destruct (persist R B schema service x st) as [[row|e0] st0];
      [|discriminate].
    destruct (create_entries R B schema service before st0)
      as [[c|e1] st3] eqn:C; [|discriminate].
    inversion Hb; subst.
    destruct (IH _ _ C) as (e' & st' & ->). eauto.
Qed.


(** *** The four ways a populate call ends *)

Lemma populate_not_found search pk body st :
  get_object B search pk st = (Raise Http404, st) ->
  respond (populate R B pk search body) st
  = ({| status := 404; payload := NotFound |}, st).
Proof.
  intros H. unfold respond, populate, bind. rewrite H. reflexivity.
Qed.

Lemma populate_invalid search pk body st schema errors :
  get_object B search pk st = (Ok schema, st) ->
  PopulateTableSerializer R body = inl errors ->
  respond (populate R B pk search body) st
  = ({| status := 400; payload := FieldErrors errors |}, st).
Proof.
  intros H E. unfold respond, populate, bind. rewrite H, E. reflexivity.
Qed.

Lemma populate_created search pk body st schema service items created st' :
  get_object B search pk st = (Ok schema, st) ->
  PopulateTableSerializer R body = inr (service, JArr items) ->
  create_entries R B schema service items st = (Ok created, st') ->
  respond (populate R B pk search body) st
  = ({| status := 201;
        payload :=
          Created ("Успешно создано "
                   ++ Py.str_of_int (Z.of_nat (List.length created))
                   ++ " записей")
            (Z.of_nat (List.length created)) created |}, st').
Proof.
  intros H E C.
  unfold respond, populate, bind, try_except, atomic, iterate, ret.
  rewrite H, E. unfold bind. rewrite C. reflexivity.
Qed.

Lemma populate_rolled_back search pk body st schema service items e st' :
  get_object B search pk st = (Ok schema, st) ->
  PopulateTableSerializer R body = inr (service, JArr items) ->
  create_entries R B schema service items st = (Raise e, st') ->
  respond (populate R B pk search body) st
  = ({| status := 500;
        payload := ErrorText ("Ошибка при создании записей: " ++ exn_str e) |},
     rollback B st st').
Proof.
  intros H E C.
  unfold respond, populate, bind, try_except, atomic, iterate, ret.
  rewrite H, E. unfold bind. rewrite C. reflexivity.
Qed.

(** Every populate call ends in one of the four ways. *)
Lemma populate_ends_total search pk body st :
  populate_ends R B search pk body st
    (fst (respond (populate R B pk search body) st))
    (snd (respond (populate R B pk search body) st)).
Proof.
  destruct (get_object_cases B search pk st) as [(schema & Hobj)|H404].
  - destruct (PopulateTableSerializer R body) as [errors|[service l]] eqn:Hser.
    + rewrite (populate_invalid _ _ _ _ _ _ Hobj Hser).
      eapply ends_invalid; eauto.
    + destruct (PopulateTableSerializer_valid R _ _ _ Hser)
        as (d & items & -> & _ & -> & _).
      destruct (create_entries R B schema service items st)
        as [[created|e] st'] eqn:Hc.
      * rewrite (populate_created _ _ _ _ _ _ _ _ _ Hobj Hser Hc).
        eapply ends_created; eauto.
      * rewrite (populate_rolled_back _ _ _ _ _ _ _ _ _ Hobj Hser Hc).
        eapply ends_rolled_back; eauto.
  - rewrite (populate_not_found _ _ _ _ H404). apply ends_not_found. exact H404.
Qed.

End PopulateFacts.

(* --------------------------------------------------------------------- *)
(** ** The populate action *)
(* --------------------------------------------------------------------- *)

Section PopulateTheorems.
Import Drf Db MainApp Properties.
Context (R : Runtime) (B : Backend).

(** C1.  A populate call whose schema resolves commits atomically: when
    persisting some record of the validated batch fails, the response is
    500 with an error text and the two tables hold exactly what they held
    before the call; and whatever the body, the record table afterwards is
    either the one before the call or the one before followed by one
    record for every element of the batch, never a part of it. *)
Theorem populate_atomic search pk body st schema :
  get_object B search pk st = (Ok schema, st) ->
  let r := respond (populate R B pk search body) st in
  (forall service items,
      PopulateTableSerializer R body = inr (service, JArr items) ->
      persisting_fails R B schema service items st ->
      status (fst r) = 500
      /\ (exists text, payload (fst r) = ErrorText text)
      /\ entries (snd r) = entries st /\ schemas (snd r) = schemas st)
  /\ (entries (snd r) = entries st
      \/ exists service items created,
           PopulateTableSerializer R body = inr (service, JArr items)
           /\ status (fst r) = 201
           /\ entries (snd r) = (entries st ++ created)%list
           /\ List.length created = List.length items).
Proof.
  intros Hobj r. split.
  - intros service items Hser Hfail. subst r.
    destruct (persisting_fails_raises R B _ _ _ _ Hfail) as (e & st' & Hraise).
    rewrite (populate_rolled_back R B _ _ _ _ _ _ _ _ _ Hobj Hser Hraise).
    simpl. repeat split; eauto.
  - subst r.
    destruct (populate_ends_total R B search pk body st)
      as [H404|schema' errors _ _|schema' service items created st' _ Hser Hc
         |schema' service items e st' _ _ _]; simpl.
    + left. reflexivity.
    + left. reflexivity.
    + right. exists service, items, created.
      apply create_entries_Ok in Hc. destruct Hc as (He & _ & Hall).
      repeat split; auto. symmetry. eapply Forall2_length; eauto.
    + left. reflexivity.
Qed.

(** C2, as amended.  On a schema that resolves, a body whose [data] is
    not a list, is empty or holds an element that is no object, or whose
    [source_service] is absent or longer than 50 characters once trimmed,
    is answered 400 with the errors by field, an entry for each field at
    fault, and the database is left as it was. *)
Theorem populate_rejects_malformed search pk d st schema :
  get_object B search pk st = (Ok schema, st) ->
  data_malformed d \/ service_malformed d ->
  exists errors,
    respond (populate R B pk search (JObj d)) st
    = ({| status := 400; payload := FieldErrors errors |}, st)
    /\ errors <> []
    /\ (forall field detail,
           In (field, detail) errors ->
           field = "source_service" \/ field = "data")
    /\ (data_malformed d -> exists detail, In ("data", detail) errors)
    /\ (service_malformed d ->
        exists detail, In ("source_service", detail) errors).
Proof.
  intros Hobj Hbad.
  set (service := CharField_run_validation R source_service_field
                    (dict_get "source_service" d)).
  set (data := then_validate (ListField_run_validation (dict_get "data" d))
                 validate_data).
  assert (PopulateTableSerializer R (JObj d)
          = inl (field_errors "source_service" service
                 ++ field_errors "data" data)%list) as Hser.
  { unfold PopulateTableSerializer. simpl. fold service data.
    destruct Hbad as [Hd | Hs].
    - destruct (data_field_rejects d Hd) as (detail & Hdet).
      fold data in Hdet. rewrite Hdet. destruct service; reflexivity.
    - destruct (service_field_rejects R d Hs) as (detail & Hdet).
      fold service in Hdet. rewrite Hdet. reflexivity. }
  eexists. split; [apply (populate_invalid R B _ _ _ _ _ _ Hobj Hser)|].
  split; [|split; [|split]].
  - destruct Hbad as [Hd | Hs].
    + destruct (data_field_rejects d Hd) as (detail & Hdet).
      fold data in Hdet. rewrite Hdet. destruct service; discriminate.
    + destruct (service_field_rejects R d Hs) as (detail & Hdet).
      fold service in Hdet. rewrite Hdet. discriminate.
  - intros field detail Hin. apply in_app_or in Hin.
    destruct Hin as [Hin | Hin]; [left; destruct service | right; destruct data];
      simpl in Hin; try contradiction;
      destruct Hin as [Heq | []]; congruence.
  - intros Hd. destruct (data_field_rejects d Hd) as (detail & Hdet).
    fold data in Hdet. rewrite Hdet. exists detail.
    apply in_or_app. right. left. reflexivity.
  - intros Hs. destruct (service_field_rejects R d Hs) as (detail & Hdet).
    fold service in Hdet. rewrite Hdet. exists detail.
    apply in_or_app. left. left. reflexivity.
Qed.


(** C4, as amended.  A populate call is answered 404 exactly when no
    schema of that id is addressable: active, and matching the search
    parameter when one is given.  A schema whose active flag was cleared
    is not addressable. *)
Theorem populate_not_found_iff search pk body st :
  status (fst (respond (populate R B pk search body) st)) = 404
  <-> forall row, In row (schemas st) -> TableSchema.id row = pk ->
                  addressable B search row = false.
Proof.
  rewrite <- get_object_404_iff. split.
  - intros H.
    destruct (populate_ends_total R B search pk body st)
      as [H404|? ? _ _|? ? ? ? ? _ _ _|? ? ? ? ? _ _ _];
      simpl in H; [exact H404|discriminate..].
  - intros H. rewrite (populate_not_found R B _ _ _ _ H). reflexivity.
Qed.

End PopulateTheorems.

Section PopulateSamples.
Import Drf Db MainApp Properties Reference.

(** On the schema [employees] holding one record, a batch whose second
    element has a [null] id: the first record is written, the second is
    refused, and the call is answered 500 with the table as it was. *)
Lemma populate_atomic_witness :
  let r := respond (populate runtime sqlite 1 None (batch [employee; anonymous]))
             (with_schema true [record_1]) in
  status (fst r) = 500 /\ entries (snd r) = [record_1].
Proof.
  destruct (populate_atomic runtime sqlite None 1 (batch [employee; anonymous])
              (with_schema true [record_1]) (employees true) eq_refl)
    as [H _].
  destruct (H "user_service" [employee; anonymous] eq_refl) as (H1 & _ & H2 & _).
  - exists [employee], anonymous, []. eexists _, _, _, _.
    split; [reflexivity|]. split; reflexivity.
  - split; assumption.
Defined.

(** C2 does not hold as stated.  Whatever the platform, an empty batch
    sent to a schema id that does not resolve is answered 404, not 400; and
    a [source_service] of 51 characters, the last one a space, is trimmed
    to 50 and not refused (on the reference platform the answer is 201). *)
Lemma populate_malformed_not_400 :
  on_every (fun R => on_every (fun B =>
    (data_malformed (batch_fields "user_service" [])
     /\ respond (populate R B 7 None (batch [])) empty
        = ({| status := 404; payload := NotFound |}, empty))
    /\ (service_too_long (batch_fields padded_service [employee])
        /\ status (fst (respond
                          (populate R B 1 None
                             (JObj (batch_fields padded_service [employee])))
                          (with_schema true []))) <> 400)))
  /\ status (fst (respond
                    (populate runtime sqlite 1 None
                       (JObj (batch_fields padded_service [employee])))
                    (with_schema true []))) = 201.
Proof.
  split; [|reflexivity]. intros R B. split; split.
  - right. left. reflexivity.
  - reflexivity.
  - exists padded_service. split; [reflexivity|]. vm_compute. lia.
  - unfold respond, populate, bind, try_except, atomic.
    change (get_object B None 1 (with_schema true []))
      with (Ok (employees true), with_schema true []).
    change (PopulateTableSerializer R
              (JObj (batch_fields padded_service [employee])))
      with (@inr error_dict _
              ("aaaaaaaaaaaaaaaaaaaaaaaaaaaaaaaaaaaaaaaaaaaaaaaaaa", JArr [employee])).
    cbv beta iota. unfold iterate, ret, bind.
    destruct (create_entries R B (employees true) _ [employee] _)
      as [[created|e] st']; simpl; discriminate.
Qed.

(** An empty batch on the schema [employees]: 400, and the state is the
    one before. *)
Lemma populate_rejects_malformed_witness :
  status (fst (respond (populate runtime sqlite 1 None (batch []))
                 (with_schema true [record_1]))) = 400
  /\ snd (respond (populate runtime sqlite 1 None (batch []))
            (with_schema true [record_1])) = with_schema true [record_1].
Proof.
  destruct (populate_rejects_malformed runtime sqlite None 1
              (batch_fields "user_service" []) (with_schema true [record_1])
              (employees true) eq_refl
              (or_introl (or_intror (or_introl eq_refl))))
    as (errors & H & _).
  unfold batch. rewrite H. split; reflexivity.
Defined.



(** C4 does not hold as stated: the schema of id 1 exists, its active
    flag cleared, and whatever the platform a populate call on it is
    answered 404. *)
Lemma populate_deactivated_not_found :
  on_every (fun R => on_every (fun B =>
    In (employees false) (schemas (with_schema false []))
    /\ TableSchema.id (employees false) = 1
    /\ respond (populate R B 1 None (batch [employee])) (with_schema false [])
       = ({| status := 404; payload := NotFound |}, with_schema false []))).
Proof.
  intros R B. split; [left; reflexivity|]. split; reflexivity.
Qed.

End PopulateSamples.

(* --------------------------------------------------------------------- *)
(** ** The clear action and the record resource *)
(* --------------------------------------------------------------------- *)

Section ClearFacts.
Import Drf Db MainApp Properties.
Context (R : Runtime) (B : Backend).

Lemma filter_nil_iff {A} (p : A -> bool) (l : list A) :
  filter p l = [] <-> forall x, In x l -> p x = false.
Proof.
  induction l as [|y l IH]; simpl.
  - split; [intros _ x []|reflexivity].
  - destruct (p y) eqn:Hy; split.
    + discriminate.
    + intros H. specialize (H y (or_introl eq_refl)). congruence.
    + intros H x [<-|Hin]; [assumption|]. apply IH; assumption.
    + intros H. apply IH. intros x Hin. apply H. right. assumption.
Qed.


Lemma filter_twice {A} (p : A -> bool) (l : list A) :
  filter p (filter p l) = filter p l.
Proof.
  induction l as [|x l IH]; simpl; [reflexivity|].
  destruct (p x) eqn:Hx; simpl; rewrite ?Hx, IH; reflexivity.
Qed.

Lemma filter_complement {A} (p : A -> bool) (l : list A) :
  filter p (filter (fun x => negb (p x)) l) = [].
Proof.
  apply filter_nil_iff. intros x Hin. apply filter_In in Hin.
  destruct Hin as [_ Hn]. destruct (p x); [discriminate|reflexivity].
Qed.

Lemma filter_count {A} (p : A -> bool) (l : list A) :
  (List.length (filter (fun x => negb (p x)) l) + List.length (filter p l)
   = List.length l)%nat.
Proof.
  induction l as [|x l IH]; simpl; [reflexivity|].
  destruct (p x); simpl; lia.
Qed.

Lemma filter_order_by_desc_nil {A} (key : A -> Z) (p : A -> bool) (l : list A) :
  filter p l = [] -> filter p (order_by_desc key l) = [].
Proof.
  rewrite !filter_nil_iff. intros H x Hin.
  apply H. apply In_order_by_desc in Hin. assumption.
Qed.

Lemma clear_data_not_found search pk st :
  get_object B search pk st = (Raise Http404, st) ->
  respond (clear_data B pk search) st
  = ({| status := 404; payload := NotFound |}, st).
Proof.
  intros H. unfold respond, clear_data, bind. rewrite H. reflexivity.
Qed.

Lemma clear_data_found search pk st schema :
  get_object B search pk st = (Ok schema, st) ->
  respond (clear_data B pk search) st
  = ({| status := 200;
        payload :=
          MessageText
            ("Удалено "
             ++ Py.str_of_int
                  (Z.of_nat (List.length (filter (of_schema schema) (entries st))))
             ++ " записей из схемы " ++ Py.dquote
             ++ TableSchema.name schema ++ Py.dquote) |},
     {| schemas := schemas st;
        entries := filter (fun row => negb (of_schema schema row)) (entries st);
        next_schema_id := next_schema_id st;
        next_data_id := next_data_id st;
        clock := clock st |}).
Proof.
  intros H. unfold respond, clear_data, bind. rewrite H. reflexivity.
Qed.

Lemma of_schema_pk search pk st schema :
  get_object B search pk st = (Ok schema, st) ->
  of_schema schema = fun row => TableData.schema row =? pk.
Proof.
  intros H. destruct (get_object_Ok B _ _ _ _ _ H) as (_ & _ & <- & _).
  reflexivity.
Qed.

(** C7, as amended.  For a schema that resolves and holds K records, the
    clear action is answered 200 with a message that gives K, the record
    table loses exactly K rows, none of those left belongs to the schema,
    and the schema's [data] action and the record list filtered by the
    schema then both return the empty sequence. *)
Theorem clear_data_deletes search pk st schema :
  get_object B search pk st = (Ok schema, st) ->
  let K := List.length (filter (fun row => TableData.schema row =? pk) (entries st)) in
  let r := respond (clear_data B pk search) st in
  fst r = {| status := 200;
             payload :=
               MessageText
                 ("Удалено " ++ Py.str_of_int (Z.of_nat K)
                  ++ " записей из схемы " ++ Py.dquote
                  ++ TableSchema.name schema ++ Py.dquote) |}
  /\ (List.length (entries (snd r)) + K = List.length (entries st))%nat
  /\ filter (fun row => TableData.schema row =? pk) (entries (snd r)) = []
  /\ respond (data B pk search) (snd r)
     = ({| status := 200; payload := Entries [] |}, snd r)
  /\ fst (respond (TableDataViewSet_list B (Some pk) None) (snd r))
     = {| status := 200; payload := Entries [] |}.
Proof.
  intros Hobj K r. subst K r.
  rewrite (clear_data_found _ _ _ _ Hobj).
  rewrite (of_schema_pk _ _ _ _ Hobj). simpl.
  split; [reflexivity|]. split; [apply filter_count|].
  split; [apply filter_complement|]. split.
  - unfold respond, data, bind, get, ret.
    match goal with
    | |- context [get_object B search pk ?s] =>
        rewrite (get_object_same_schemas B search pk st s schema eq_refl Hobj)
    end.
    rewrite (of_schema_pk _ _ _ _ Hobj). simpl.
    rewrite filter_complement. reflexivity.
  - unfold respond, TableDataViewSet_list, bind, get, ret,
      TableDataViewSet_get_queryset. simpl.
    rewrite filter_order_by_desc_nil; [reflexivity|apply filter_complement].
Qed.

(** What the clear action leaves: everything, or everything but the records
    of the target schema. *)
Lemma clear_data_entries search pk st :
  let st' := snd (respond (clear_data B pk search) st) in
  (entries st' = entries st
   \/ entries st'
      = filter (fun row => negb (TableData.schema row =? pk)) (entries st))
  /\ schemas st' = schemas st.
Proof.
  intros st'. subst st'.
  destruct (get_object_cases B search pk st) as [(schema & Hobj)|H404].
  - rewrite (clear_data_found _ _ _ _ Hobj).
    rewrite (of_schema_pk _ _ _ _ Hobj). simpl.
    split; [right|]; reflexivity.
  - rewrite (clear_data_not_found _ _ _ H404). simpl.
    split; [left|]; reflexivity.
Qed.

(** C10.  The clear action leaves the records of every other schema as
    they were, in their order: it either deletes nothing or deletes
    exactly the records whose schema is the target; the schemas are not
    touched. *)
Theorem clear_data_frame search pk st :
  let st' := snd (respond (clear_data B pk search) st) in
  filter (fun row => negb (TableData.schema row =? pk)) (entries st')
  = filter (fun row => negb (TableData.schema row =? pk)) (entries st)
  /\ (entries st' = entries st
      \/ entries st'
         = filter (fun row => negb (TableData.schema row =? pk)) (entries st))
  /\ schemas st' = schemas st.
Proof.
  intros st'. subst st'.
  destruct (clear_data_entries search pk st) as [[H|H] Hs].
  - rewrite H. auto.
  - split; [|auto]. rewrite H. apply filter_twice.
Qed.

End ClearFacts.

Section ClearSamples.
Import Drf Db MainApp Properties Reference.

(** C7 does not hold as stated: the deactivated schema of id 1 holds one
    record; whatever the backend, clearing it is answered 404 and the
    record stays. *)
Lemma clear_data_deactivated_keeps_records :
  on_every (fun B =>
    filter (fun row => TableData.schema row =? 1)
      (entries (with_schema false [record_1])) = [record_1]
    /\ respond (clear_data B 1 None) (with_schema false [record_1])
       = ({| status := 404; payload := NotFound |}, with_schema false [record_1])).
Proof. intros B. split; reflexivity. Qed.

(** Clearing the schema [employees] with its one record. *)
Lemma clear_data_deletes_witness :
  let r := respond (clear_data sqlite 1 None) (with_schema true [record_1]) in
  fst r = {| status := 200;
             payload :=
               MessageText ("Удалено 1 записей из схемы " ++ Py.dquote
                            ++ "employees" ++ Py.dquote) |}
  /\ entries (snd r) = [].
Proof.
  destruct (clear_data_deletes sqlite None 1 (with_schema true [record_1])
              (employees true) eq_refl) as (H1 & _).
  split; [exact H1|reflexivity].
Defined.

End ClearSamples.


Section RecordFacts.
Import Drf Db MainApp Properties.
Context (R : Runtime) (B : Backend).







End RecordFacts.

Section RecordSamples.
Import Drf Db MainApp Properties Reference.


End RecordSamples.

(* --------------------------------------------------------------------- *)
(** ** Schema creation *)
(* --------------------------------------------------------------------- *)

Section SchemaFacts.
Import Drf Db MainApp Properties.
Context (R : Runtime) (B : Backend).

















End SchemaFacts.

Section SchemaSamples.
Import Drf Db MainApp Properties Reference.


(** The scenario of the specification: creating [employees] stores it with
    its two fields. *)
Example schema_creation_employees :
  respond (TableSchemaViewSet_create runtime sqlite
             (JObj [("name", JStr "employees");
                    ("fields_config",
                     TableSchema.fields_config (employees true))]))
    empty
  = ({| status := 201; payload := Schema (employees true) |},
     {| schemas := [employees true]; entries := []; next_schema_id := 2;
        next_data_id := 1; clock := 1 |}).
Proof. reflexivity. Qed.

End SchemaSamples.

(* --------------------------------------------------------------------- *)
(** ** Dates: what [isoformat] writes reads back as the same date *)
(* --------------------------------------------------------------------- *)

Section DateFacts.
Import Producer.

Lemma digit_value_digit z : digit_value (digit z) = Some (z mod 10).
Proof.
  unfold digit_value, digit.
  assert (0 <= z mod 10 < 10) as Hr by (apply Z.mod_pos_bound; lia).
  rewrite N_ascii_embedding by lia.
  replace ((48 <=? 48 + Z.to_N (z mod 10))%N && (48 + Z.to_N (z mod 10) <=? 57)%N)
    with true.
  - f_equal. lia.
  - symmetry. apply andb_true_iff. split; apply N.leb_le; lia.
Qed.

Lemma number2 z :
  0 <= z < 100 -> number [digit (z / 10); digit z] = Some z.
Proof.
  intros H. unfold number, number_from. rewrite !digit_value_digit.
  f_equal. Z.div_mod_to_equations. lia.
Qed.

Lemma number4 z :
  0 <= z < 10000 ->
  number [digit (z / 10 / 10 / 10); digit (z / 10 / 10); digit (z / 10); digit z]
  = Some z.
Proof.
  intros H. unfold number, number_from. rewrite !digit_value_digit.
  f_equal. Z.div_mod_to_equations. lia.
Qed.

Lemma number6 z :
  0 <= z < 1000000 ->
  number [digit (z / 10 / 10 / 10 / 10 / 10); digit (z / 10 / 10 / 10 / 10);
          digit (z / 10 / 10 / 10); digit (z / 10 / 10); digit (z / 10); digit z]
  = Some z.
Proof.
  intros H. unfold number, number_from. rewrite !digit_value_digit.
  f_equal. Z.div_mod_to_equations. lia.
Qed.

Lemma date_isoformat_chars d :
  list_ascii_of_string (date_isoformat d)
  = [digit (year d / 10 / 10 / 10); digit (year d / 10 / 10);
     digit (year d / 10); digit (year d); hyphen;
     digit (month d / 10); digit (month d); hyphen;
     digit (day d / 10); digit (day d)].
Proof. reflexivity. Qed.

Lemma parse_iso_date_isoformat d :
  valid_date d -> parse_iso_date (date_isoformat d) = Some d.
Proof.
  intros (Hy & Hm & Hd). unfold parse_iso_date.
  rewrite date_isoformat_chars.
  rewrite number4, !number2 by lia.
  replace (Ascii.eqb hyphen hyphen) with true by reflexivity. cbv iota beta. simpl andb.
  destruct d as [y m dd]. simpl in *.
  repeat match goal with
  | |- context [?a <=? ?b] =>
      replace (a <=? b) with true by (symmetry; apply Z.leb_le; lia)
  end.
  reflexivity.
Qed.

Lemma datetime_isoformat_chars t :
  list_ascii_of_string (datetime_isoformat t)
  = (list_ascii_of_string (date_isoformat (on t))
     ++ [letter_T; digit (hour t / 10); digit (hour t); colon;
         digit (minute t / 10); digit (minute t); colon;
         digit (second t / 10); digit (second t)]
     ++ fraction_chars (microsecond t) ++ offset_chars (utcoffset t))%list.
Proof.
  unfold datetime_isoformat, fraction_chars, offset_chars.
  destruct (microsecond t =? 0); destruct (utcoffset t) as [m|];
    try destruct (m <? 0); reflexivity.
Qed.

Lemma parse_fraction_chars us rest :
  0 <= us <= 999999 ->
  (rest = [] \/ exists a b c d e f, rest = [a; b; c; d; e; f]) ->
  parse_fraction (fraction_chars us ++ rest) = Some (us, rest).
Proof.
  intros Hus Hrest. unfold fraction_chars.
  destruct (us =? 0) eqn:E.
  - apply Z.eqb_eq in E. subst.
    destruct Hrest as [->|(a & b & c & d & e & f & ->)]; reflexivity.
  - cbn [app parse_fraction].
    replace (Ascii.eqb period period) with true by reflexivity.
    rewrite number6 by lia. reflexivity.
Qed.

Lemma parse_offset_chars offset :
  match offset with Some m => -1440 < m < 1440 | None => True end ->
  parse_offset (offset_chars offset) = Some offset.
Proof.
  destruct offset as [m|]; [|reflexivity]. intros Hm.
  unfold offset_chars, parse_offset.
  replace (Ascii.eqb colon colon) with true by reflexivity.
  rewrite !number2 by (Z.div_mod_to_equations; lia).
  destruct (m <? 0) eqn:E.
  - replace (Ascii.eqb hyphen plus_sign) with false by reflexivity.
    replace (Ascii.eqb hyphen hyphen) with true by reflexivity.
    apply Z.ltb_lt in E. do 2 f_equal. Z.div_mod_to_equations. lia.
  - replace (Ascii.eqb plus_sign plus_sign) with true by reflexivity.
    apply Z.ltb_ge in E. do 2 f_equal. Z.div_mod_to_equations. lia.
Qed.

Lemma parse_iso_datetime_isoformat t :
  valid_datetime t -> parse_iso_datetime (datetime_isoformat t) = Some t.
Proof.
  intros (Hd & Hh & Hm & Hs & Hus & Hoff). unfold parse_iso_datetime.
  rewrite datetime_isoformat_chars, date_isoformat_chars.
  cbn [app].
  replace (Ascii.eqb letter_T letter_T) with true by reflexivity.
  replace (Ascii.eqb colon colon) with true by reflexivity.
  cbn [andb].
  change (string_of_list_ascii _) with (date_isoformat (on t)).
  rewrite (parse_iso_date_isoformat _ Hd).
  rewrite !number2 by lia.
  rewrite parse_fraction_chars;
    [|lia|destruct (utcoffset t); [right; repeat eexists|left]; reflexivity].
  rewrite parse_offset_chars by exact Hoff.
  repeat match goal with
  | |- context [?a <=? ?b] =>
      replace (a <=? b) with true by (symmetry; apply Z.leb_le; lia)
  end.
  destruct t; reflexivity.
Qed.

End DateFacts.

(* --------------------------------------------------------------------- *)
(** ** The canonical records *)
(* --------------------------------------------------------------------- *)

Section RecordShape.
Import Producer UserService ProductService SyncProperties.
Context (A : Arithmetic).

Lemma department_display code :
  In code (map fst DEPARTMENT_CHOICES) ->
  In (code, get_display DEPARTMENT_CHOICES code) DEPARTMENT_CHOICES
  /\ get_display DEPARTMENT_CHOICES code <> code.
Proof.
  simpl. intros H.
  repeat (destruct H as [<-|H];
          [split; [simpl; tauto|discriminate]|]).
  destruct H.
Qed.

Lemma position_display code :
  In code (map fst POSITION_CHOICES) ->
  In (code, get_display POSITION_CHOICES code) POSITION_CHOICES
  /\ get_display POSITION_CHOICES code <> code.
Proof.
  simpl. intros H.
  repeat (destruct H as [<-|H];
          [split; [simpl; tauto|discriminate]|]).
  destruct H.
Qed.

Lemma status_display code :
  In code (map fst STATUS_CHOICES) ->
  In (code, get_display STATUS_CHOICES code) STATUS_CHOICES
  /\ get_display STATUS_CHOICES code <> code.
Proof.
  simpl. intros H.
  repeat (destruct H as [<-|H];
          [split; [simpl; tauto|discriminate]|]).
  destruct H.
Qed.

(** An unlisted code is shown as it is. *)
Lemma get_display_unlisted choices code :
  ~ In code (map fst choices) -> get_display choices code = code.
Proof.
  induction choices as [|[c l] rest IH]; simpl; [reflexivity|].
  intros H. destruct (String.eqb code c) eqn:E.
  - apply String.eqb_eq in E. subst. tauto.
  - apply IH. tauto.
Qed.

(** C8, as amended.  For a user and a product whose choice fields hold
    declared codes and whose dates are dates of the calendar, the records
    of [to_table_data] have the declared field names; [salary] is a float
    when it is set (and not zero), and null when it is not set; [cost_price],
    [selling_price] and [current_price] are floats; [hire_date] and
    [created_at] are ISO 8601 strings that read back as the entity's date;
    [department], [position] and [status] hold the display label and not
    the code; and every value of the user's record, and every value of the
    product's record other than [profit_margin], is a primitive. *)
Theorem to_table_data_canonical (u : User.t) (p : Product.t) :
  valid_date (User.hire_date u) ->
  In (User.department u) (map fst DEPARTMENT_CHOICES) ->
  In (User.position u) (map fst POSITION_CHOICES) ->
  valid_datetime (Product.created_at p) ->
  In (Product.status p) (map fst STATUS_CHOICES) ->
  let ru := UserService.to_table_data A u in
  let rp := ProductService.to_table_data A p in
  (map fst ru = user_fields /\ map fst rp = product_fields)
  /\ (forallb is_primitive (map snd ru) = true
      /\ forall field v,
           In (field, v) rp -> field <> "profit_margin" -> is_primitive v = true)
  /\ ((forall d, User.salary u = Some d -> unscaled d <> 0 ->
                 lookup "salary" ru = Some (PFloat (float_of_decimal A d)))
      /\ (User.salary u = None -> lookup "salary" ru = Some PNone)
      /\ lookup "cost_price" rp
         = Some (PFloat (float_of_decimal A (Product.cost_price p)))
      /\ lookup "selling_price" rp
         = Some (PFloat (float_of_decimal A (Product.selling_price p)))
      /\ lookup "current_price" rp
         = Some (PFloat (float_of_decimal A (current_price p))))
  /\ ((exists s, lookup "hire_date" ru = Some (PStr s)
                 /\ parse_iso_date s = Some (User.hire_date u))
      /\ exists s, lookup "created_at" rp = Some (PStr s)
                   /\ parse_iso_datetime s = Some (Product.created_at p))
  /\ (shows_label DEPARTMENT_CHOICES (User.department u) ru "department"
      /\ shows_label POSITION_CHOICES (User.position u) ru "position"
      /\ shows_label STATUS_CHOICES (Product.status p) rp "status").
Proof.
  intros Hdate Hdep Hpos Htime Hstatus ru rp. subst ru rp.
  split; [split; reflexivity|]. split; [split|].
  - unfold UserService.to_table_data. simpl.
    destruct (User.salary u) as [d|]; [destruct (decimal_truthy d)|];
      reflexivity.
  - intros field v Hin Hfield.
    unfold ProductService.to_table_data in Hin. simpl in Hin.
    repeat (destruct Hin as [Hin|Hin];
            [inversion Hin; subst; try reflexivity; try congruence|]);
      try contradiction.
    destruct (Product.weight p) as [w|]; [destruct (decimal_truthy w)|];
      reflexivity.
  - split; [split; [|split; [|split; [|split]]]|split; [split|]].
    + intros d Hd Hnz. unfold UserService.to_table_data. simpl. rewrite Hd.
      unfold decimal_truthy. apply Z.eqb_neq in Hnz. rewrite Hnz. reflexivity.
    + intros Hn. unfold UserService.to_table_data. simpl.
      rewrite Hn. reflexivity.
    + reflexivity.
    + reflexivity.
    + reflexivity.
    + eexists. split; [reflexivity|]. apply parse_iso_date_isoformat. exact Hdate.
    + eexists. split; [reflexivity|].
      apply parse_iso_datetime_isoformat. exact Htime.
    + destruct (department_display _ Hdep) as [H1 H2].
      destruct (position_display _ Hpos) as [H3 H4].
      destruct (status_display _ Hstatus) as [H5 H6].
      repeat split; eexists; (split; [reflexivity|split; assumption]).
Qed.

End RecordShape.

Section RecordShapeSamples.
Import Producer UserService ProductService SyncProperties Samples Reference.

(** C8 does not hold as stated: whatever the arithmetic, the salary of a
    user who has none is [None] in the record, not a float. *)
Lemma salary_of_unpaid_user_is_null :
  on_every (fun A =>
    User.salary alice = None
    /\ lookup "salary" (UserService.to_table_data A alice) = Some PNone
    /\ is_float PNone = false).
Proof. intros A. repeat split; reflexivity. Qed.

(** The records of a user hired on 28 February 2023 in the IT department
    and of an active product. *)
Lemma to_table_data_canonical_witness :
  lookup "hire_date" (UserService.to_table_data arithmetic alice)
  = Some (PStr "2023-02-28")
  /\ shows_label DEPARTMENT_CHOICES "IT"
       (UserService.to_table_data arithmetic alice) "department"
  /\ shows_label STATUS_CHOICES "ACTIVE"
       (ProductService.to_table_data arithmetic widget) "status".
Proof.
  assert (valid_date (User.hire_date alice)) as H1
    by (unfold valid_date; simpl; lia).
  assert (valid_datetime (Product.created_at widget)) as H2
    by (unfold valid_datetime, valid_date; simpl; lia).
  destruct (to_table_data_canonical arithmetic alice widget H1
              (or_introl eq_refl)
              (or_intror (or_intror (or_intror (or_introl eq_refl))))
              H2 (or_introl eq_refl))
    as (_ & _ & _ & _ & Hd & _ & Hs).
  split; [reflexivity|]. split; assumption.
Defined.

End RecordShapeSamples.

(* --------------------------------------------------------------------- *)
(** ** The sync client of user_service *)
(* --------------------------------------------------------------------- *)

Section SyncFacts.
Import Producer UserService SyncProperties.
Context (R : Runtime) (A : Arithmetic) (CORE_SERVICE_URL : string)
  (remote : Remote).

(** A single push sends its one request and answers with a boolean, true
    for a 201 only. *)
Lemma sync_to_core_service_spec self fx :
  let out := sync_to_core_service A CORE_SERVICE_URL remote self fx in
  sent (snd out) = (sent fx ++ [single_request A CORE_SERVICE_URL self])%list
  /\ (fst out = true
      <-> expected (remote (single_request A CORE_SERVICE_URL self))
          = Some Success).
Proof.
  unfold sync_to_core_service, requests_post, expected.
  fold (single_request A CORE_SERVICE_URL self).
  destruct (remote (single_request A CORE_SERVICE_URL self)) as [code text|e];
    simpl.
  - split; [reflexivity|]. destruct (code =? 201).
    + split; reflexivity.
    + split; discriminate.
  - split; [reflexivity|]. split; [discriminate|].
    destruct (is_RequestException e); discriminate.
Qed.

(** A bulk push sends its one request and reports the class of what it
    meets; an exception that is no [RequestException] goes through. *)
Lemma sync_to_core_spec users body fx schema_id user_ids :
  SyncToCoreSerializer R body = inr (schema_id, user_ids) ->
  active_users user_ids users <> [] ->
  let rq :=
    bulk_request A CORE_SERVICE_URL schema_id (active_users user_ids users) in
  let out := sync_to_core R A CORE_SERVICE_URL remote users body fx in
  sent (snd out) = (sent fx ++ [rq])%list
  /\ match expected (remote rq) with
     | Some c => exists resp, fst out = inl resp /\ reports resp c
     | None => exists e, remote rq = Raised e /\ fst out = inr e
     end.
Proof.
  intros Hser Hne rq out. subst rq out.
  unfold sync_to_core. rewrite Hser.
  destruct (active_users user_ids users) as [|user selected] eqn:Hsel;
    [congruence|].
  unfold requests_post, expected.
  fold (bulk_request A CORE_SERVICE_URL schema_id (user :: selected)).
  destruct (remote (bulk_request A CORE_SERVICE_URL schema_id (user :: selected)))
    as [code text|e] eqn:Hr; simpl.
  - destruct (code =? 201) eqn:Hc; simpl.
    + split; [reflexivity|].
      eexists. split; [reflexivity|]. split; [reflexivity|].
      do 3 eexists. reflexivity.
    + split; [reflexivity|]. eexists. split; reflexivity.
  - destruct (is_RequestException e); simpl.
    + split; [reflexivity|]. eexists. split; [reflexivity|].
      split; [reflexivity|]. eexists. reflexivity.
    + split; [reflexivity|]. eexists. split; reflexivity.
Qed.

(** C9, as amended.  A bulk push ([sync_to_core], on a valid request that
    selects some user) sends one request with a timeout of 10 and reports
    what it meets: 200 exactly for a 201, 502 with the remote's status and
    text for any other answer, 503 for a connection failure or a timeout,
    which does not propagate.  A single push ([sync_to_core_service]) sends
    one request with a timeout of 5 and returns a boolean, true exactly for
    a 201: a rejection and an unavailability both give false, and nothing
    propagates; creating a user stores the user whatever its push meets. *)
Theorem sync_push_outcomes users body fx schema_id user_ids self :
  SyncToCoreSerializer R body = inr (schema_id, user_ids) ->
  active_users user_ids users <> [] ->
  (let rq :=
     bulk_request A CORE_SERVICE_URL schema_id (active_users user_ids users) in
   let out := sync_to_core R A CORE_SERVICE_URL remote users body fx in
   sent (snd out) = (sent fx ++ [rq])%list
   /\ timeout rq = 10
   /\ match expected (remote rq) with
      | Some c => exists resp, fst out = inl resp /\ reports resp c
      | None => exists e, remote rq = Raised e /\ fst out = inr e
      end)
  /\ (let rq := single_request A CORE_SERVICE_URL self in
      let out := sync_to_core_service A CORE_SERVICE_URL remote self fx in
      sent (snd out) = (sent fx ++ [rq])%list
      /\ timeout rq = 5
      /\ (fst out = true <-> expected (remote rq) = Some Success)
      /\ (expected (remote rq) <> Some Success -> fst out = false))
  /\ (forall next_id now v,
         let out :=
           UserCreateSerializer_create A CORE_SERVICE_URL remote next_id now v
             users fx in
         snd (fst out) = (users ++ [fst (fst out)])%list).
Proof.
  intros Hser Hne. split; [|split].
  - destruct (sync_to_core_spec users body fx schema_id user_ids Hser Hne)
      as [H1 H2].
    split; [exact H1|]. split; [reflexivity|exact H2].
  - destruct (sync_to_core_service_spec self fx) as [H1 H2].
    split; [exact H1|]. split; [reflexivity|]. split; [exact H2|].
    intros Hn. destruct (fst (sync_to_core_service _ _ _ _ _)); [|reflexivity].
    exfalso. apply Hn. apply H2. reflexivity.
  - intros next_id now v. unfold UserCreateSerializer_create.
    destruct (sync_to_core_service _ _ _ _ _). reflexivity.
Qed.

End SyncFacts.

Section SyncSamples.
Import Producer UserService SyncProperties Samples Reference.

(** C9 does not hold as stated: for a single push, a remote that answers
    400 is a rejection and a remote that cannot be reached an
    unavailability, yet whatever the arithmetic [sync_to_core_service]
    returns [False] for both and [sync_single] answers both with the same
    502, which carries neither the remote's status nor its text. *)
Lemma single_push_hides_rejection :
  on_every (fun A =>
    expected (declining (single_request A core_url alice))
    = Some (Rejected 400 "bad request")
    /\ expected (unreachable (single_request A core_url alice))
       = Some Unavailable
    /\ fst (sync_to_core_service A core_url declining alice quiet) = false
    /\ fst (sync_to_core_service A core_url unreachable alice quiet) = false
    /\ fst (sync_single A core_url declining [alice] 1 quiet)
       = {| status := 502; payload := ErrorText "Ошибка синхронизации" |}
    /\ fst (sync_single A core_url unreachable [alice] 1 quiet)
       = {| status := 502; payload := ErrorText "Ошибка синхронизации" |}).
Proof. intros A. repeat split; reflexivity. Qed.

(** A bulk push of one user to an aggregator that declines, and to one
    that cannot be reached. *)
Lemma sync_push_outcomes_witness :
  fst (sync_to_core runtime arithmetic core_url declining [alice] (JObj []) quiet)
  = inl {| status := 502;
           payload := ErrorDetails "Ошибка Core Service: 400" "bad request" |}
  /\ fst (sync_to_core runtime arithmetic core_url unreachable [alice] (JObj [])
            quiet)
     = inl {| status := 503;
              payload :=
                ErrorText
                  "Не удалось подключиться к Core Service: connection refused" |}.
Proof.
  assert (active_users None [alice] <> []) as Hne by discriminate.
  destruct (sync_push_outcomes runtime arithmetic core_url declining [alice]
              (JObj []) quiet 1 None alice eq_refl Hne)
    as [(_ & _ & resp & H1 & H2) _].
  split; [|reflexivity]. rewrite H1. simpl in H2. rewrite H2. reflexivity.
Defined.

End SyncSamples.
